(** * MySQL Connector/Python value conversion ([mysql/connector/conversion.py])

    A shallow embedding of the [HexLiteral] class and of the
    [MySQLConverter] class: [escape], [quote], the [to_mysql] dispatch with
    its [_<type>_to_mysql] methods and the [to_python] dispatch with its
    [_<TYPE>_to_python] methods.

    Python 2 byte strings ([str]) are Rocq strings, [unicode] objects are
    lists of code points, Python integers are [Z].  Exceptions are explicit:
    every operation that can raise returns a [result]. *)

From Stdlib Require Import ZArith NArith List String Ascii Bool Lia.
From Stdlib Require Import Decimal DecimalString DecimalN.
From Stdlib Require HexadecimalString.
Import ListNotations.

Local Open Scope string_scope.
Local Open Scope Z_scope.

(** ** Byte-string builtins *)

Module PyStr.

Fixpoint forallb (p : ascii -> bool) (s : string) : bool :=
  match s with
  | EmptyString => true
  | String c s' => p c && forallb p s'
  end.

Definition contains (c : ascii) (s : string) : bool :=
  negb (forallb (fun x => negb (Ascii.eqb x c)) s).

Fixpoint repeat (c : ascii) (n : nat) : string :=
  match n with
  | O => EmptyString
  | S k => String c (repeat c k)
  end.

(** [s.ljust(w, fill)] *)
Definition ljust (w : nat) (fill : ascii) (s : string) : string :=
  s ++ repeat fill (w - String.length s).

(** [s.rjust(w, fill)], the padding of the [%0wd] conversions *)
Definition rjust (w : nat) (fill : ascii) (s : string) : string :=
  repeat fill (w - String.length s) ++ s.

(** [s.split(sep)] for a one-character separator: always at least one
    part, empty parts are kept. *)
Fixpoint split (sep : ascii) (s : string) : list string :=
  match s with
  | EmptyString => [EmptyString]
  | String c s' =>
      if Ascii.eqb c sep then EmptyString :: split sep s'
      else match split sep s' with
           | [] => [String c EmptyString]
           | p :: ps => String c p :: ps
           end
  end.

(** [s.replace(old, new)] for a one-character [old]; every pattern that
    [escape] replaces is a single character. *)
Fixpoint replace (old : ascii) (new : string) (s : string) : string :=
  match s with
  | EmptyString => EmptyString
  | String c s' =>
      if Ascii.eqb c old then new ++ replace old new s'
      else String c (replace old new s')
  end.

(** C [isspace] in the "C" locale, as used by [int()] and [strip] *)
Definition is_space (c : ascii) : bool :=
  match c with
  | " " | "009" | "010" | "011" | "012" | "013" => true
  | _ => false
  end%char.

Fixpoint lstrip (s : string) : string :=
  match s with
  | EmptyString => EmptyString
  | String c s' => if is_space c then lstrip s' else s
  end.

Fixpoint rstrip (s : string) : string :=
  match s with
  | EmptyString => EmptyString
  | String c s' =>
      match rstrip s' with
      | EmptyString => if is_space c then EmptyString
                       else String c EmptyString
      | r => String c r
      end
  end.

Definition strip (s : string) : string := rstrip (lstrip s).

Definition is_upper (c : ascii) : bool :=
  let n := nat_of_ascii c in (65 <=? n)%nat && (n <=? 90)%nat.

(** [s.lower()] *)
Fixpoint lower (s : string) : string :=
  match s with
  | EmptyString => EmptyString
  | String c s' =>
      String (if is_upper c then ascii_of_nat (nat_of_ascii c + 32) else c)
             (lower s')
  end.

Definition is_digit (c : ascii) : bool :=
  match c with
  | "0" | "1" | "2" | "3" | "4" | "5" | "6" | "7" | "8" | "9" => true
  | _ => false
  end%char.

(** Bytes of a string as numbers ([ord]) and back ([chr]) *)
Fixpoint ords (s : string) : list N :=
  match s with
  | EmptyString => []
  | String c s' => N_of_ascii c :: ords s'
  end.

Fixpoint chrs (l : list N) : string :=
  match l with
  | [] => EmptyString
  | n :: l' => String (ascii_of_N n) (chrs l')
  end.

Fixpoint join (l : list string) : string :=
  match l with
  | [] => EmptyString
  | s :: l' => s ++ join l'
  end.

End PyStr.

(** ** Integer formatting and parsing *)

Module PyNum.

(** [str(n)] for a non-negative integer *)
Definition str_of_N (n : N) : string :=
  DecimalString.NilEmpty.string_of_uint (N.to_uint n).

(** ['%d' % z] *)
Definition str_of_Z (z : Z) : string :=
  if z <? 0 then String "-" (str_of_N (Z.to_N (- z)))
  else str_of_N (Z.to_N z).

(** ['%0wd' % z] and ['{0:0wd}'.format(z)]: the sign counts in the
    width and the zeros go between the sign and the digits. *)
Definition fmt_0d (w : nat) (z : Z) : string :=
  if z <? 0 then String "-" (PyStr.rjust (w - 1) "0" (str_of_N (Z.to_N (- z))))
  else PyStr.rjust w "0" (str_of_N (Z.to_N z)).

(** ['{0:x}'.format(n)]: lowercase hexadecimal, no padding *)
Definition fmt_x (n : N) : string :=
  HexadecimalString.NilEmpty.string_of_uint (N.to_hex_uint n).

(** The digits of an integer literal: at least one, all decimal. *)
Definition digits_value (s : string) : option Z :=
  match s with
  | EmptyString => None
  | _ => option_map (fun d => Z.of_N (N.of_uint d))
                  (DecimalString.NilEmpty.uint_of_string s)
  end.

(** [int(s)] in base 10 on a byte string: surrounding white space is
    dropped, one sign is allowed, the rest must be decimal digits.
    [None] stands for the [ValueError] of an invalid literal. *)
Definition py_int (s : string) : option Z :=
  match PyStr.strip s with
  | String "-" r => option_map Z.opp (digits_value r)
  | String "+" r => digits_value r
  | t => digits_value t
  end.

End PyNum.

(** ** Exceptions *)

Inductive exn_class : Type :=
| ValueError
| UnicodeDecodeError
| UnicodeEncodeError
| TypeError
| IndexError
| KeyError
| AttributeError
| OverflowError
| LookupError
| StructError
| InvalidOperation.

(** [isinstance(e, ValueError)]: the Unicode errors derive from it. *)
Definition is_ValueError (c : exn_class) : bool :=
  match c with
  | ValueError | UnicodeDecodeError | UnicodeEncodeError => true
  | _ => false
  end.

Definition is_TypeError (c : exn_class) : bool :=
  match c with TypeError => true | _ => false end.

Definition is_KeyError (c : exn_class) : bool :=
  match c with KeyError => true | _ => false end.

Definition is_AttributeError (c : exn_class) : bool :=
  match c with AttributeError => true | _ => false end.

Record exn : Type := mk_exn { exn_kind : exn_class; exn_msg : string }.

Inductive result (A : Type) : Type :=
| Return (a : A)
| Raise (e : exn).
Arguments Return {A} a.
Arguments Raise {A} e.

Definition bind {A B : Type} (r : result A) (k : A -> result B) : result B :=
  match r with
  | Return a => k a
  | Raise e => Raise e
  end.

Notation "x <- r ;; k" := (bind r (fun x => k))
  (at level 61, r at next level, right associativity).

Definition raise {A : Type} (c : exn_class) (msg : string) : result A :=
  Raise (mk_exn c msg).

(** [try: body  except <classes>: handler] *)
Definition try_except {A : Type} (body : result A) (catches : exn_class -> bool)
    (handler : exn -> result A) : result A :=
  match body with
  | Return a => Return a
  | Raise e => if catches (exn_kind e) then handler e else Raise e
  end.

(** [l[i]] on a list *)
Definition getitem {A : Type} (l : list A) (i : nat) : result A :=
  match nth_error l i with
  | Some a => Return a
  | None => raise IndexError "list index out of range"
  end.

(** ** The [datetime] module: values and constructors *)

Record date : Type := mk_date { d_year : Z; d_month : Z; d_day : Z }.

(** A time zone object, reduced to what a fixed-offset [tzinfo] holds:
    the offset from UTC in minutes and the zone's name. *)
Record tzinfo : Type :=
  mk_tzinfo { tz_utcoffset : Z; tz_name : string }.

(** [datetime.time] and [datetime.datetime] carry a [tzinfo] attribute:
    [None] for a naive value, a time zone for an aware one. *)
Record time : Type :=
  mk_time { t_hour : Z; t_minute : Z; t_second : Z; t_microsecond : Z;
            t_tzinfo : option tzinfo }.

Record datetime : Type :=
  mk_datetime { dt_year : Z; dt_month : Z; dt_day : Z;
                dt_hour : Z; dt_minute : Z; dt_second : Z;
                dt_microsecond : Z;
                dt_tzinfo : option tzinfo }.

(** The naive date-time of the same fields. *)
Definition naive (dt : datetime) : datetime :=
  mk_datetime (dt_year dt) (dt_month dt) (dt_day dt)
              (dt_hour dt) (dt_minute dt) (dt_second dt)
              (dt_microsecond dt) None.

(** A [timedelta] in its normalized representation. *)
Record timedelta : Type :=
  mk_timedelta { td_days : Z; td_seconds : Z; td_microseconds : Z }.

Record struct_time : Type :=
  mk_struct_time { tm_year : Z; tm_mon : Z; tm_mday : Z;
                   tm_hour : Z; tm_min : Z; tm_sec : Z;
                   tm_wday : Z; tm_yday : Z; tm_isdst : Z }.

Module Datetime.

Definition MINYEAR : Z := 1.
Definition MAXYEAR : Z := 9999.

Definition is_leap (y : Z) : bool :=
  (y mod 4 =? 0) && (negb (y mod 100 =? 0) || (y mod 400 =? 0)).

Definition days_in_month (y m : Z) : Z :=
  if m =? 2 then (if is_leap y then 29 else 28)
  else if (m =? 4) || (m =? 6) || (m =? 9) || (m =? 11) then 30
  else 31.

(** An argument parsed with the "i" format must fit a C [int]. *)
Definition c_int (z : Z) : result Z :=
  if (- 2147483648 <=? z) && (z <=? 2147483647) then Return z
  else raise OverflowError "signed integer is greater than maximum".

Definition check_date_args (y m d : Z) : result unit :=
  if negb ((MINYEAR <=? y) && (y <=? MAXYEAR))
  then raise ValueError "year is out of range"
  else if negb ((1 <=? m) && (m <=? 12))
  then raise ValueError "month must be in 1..12"
  else if negb ((1 <=? d) && (d <=? days_in_month y m))
  then raise ValueError "day is out of range for month"
  else Return tt.

Definition check_time_args (h mi s us : Z) : result unit :=
  if negb ((0 <=? h) && (h <=? 23))
  then raise ValueError "hour must be in 0..23"
  else if negb ((0 <=? mi) && (mi <=? 59))
  then raise ValueError "minute must be in 0..59"
  else if negb ((0 <=? s) && (s <=? 59))
  then raise ValueError "second must be in 0..59"
  else if negb ((0 <=? us) && (us <=? 999999))
  then raise ValueError "microsecond must be in 0..999999"
  else Return tt.

(** [datetime.date(y, m, d)] *)
Definition date_new (y m d : Z) : result date :=
  y' <- c_int y ;; m' <- c_int m ;; d' <- c_int d ;;
  _ <- check_date_args y' m' d' ;;
  Return (mk_date y' m' d').

Fixpoint c_ints (l : list Z) : result (list Z) :=
  match l with
  | [] => Return []
  | z :: l' => z' <- c_int z ;; r <- c_ints l' ;; Return (z' :: r)
  end.

(** [datetime.datetime( *args )] on a list of integers: three to seven
    are the fields (missing ones default to zero), an eighth is taken as
    [tzinfo], for which an integer is refused after the range checks.
    The value built from integers alone is naive. *)
Definition datetime_new (args : list Z) : result datetime :=
  if (8 <? Z.of_nat (List.length args))
  then raise TypeError "function takes at most 8 arguments"
  else if (Z.of_nat (List.length args) <? 3)
  then raise TypeError "Required argument not found"
  else
    ints <- c_ints (firstn 7 args) ;;
    let f i := nth i ints 0 in
    _ <- check_date_args (f 0%nat) (f 1%nat) (f 2%nat) ;;
    _ <- check_time_args (f 3%nat) (f 4%nat) (f 5%nat) (f 6%nat) ;;
    if (Z.of_nat (List.length args) =? 8)
    then raise TypeError
           "tzinfo argument must be None or of a tzinfo subclass, not type 'int'"
    else Return (mk_datetime (f 0%nat) (f 1%nat) (f 2%nat)
                             (f 3%nat) (f 4%nat) (f 5%nat) (f 6%nat) None).

(** [datetime.timedelta(hours=h, minutes=mi, seconds=s, microseconds=us)]
    on integers: the total is normalized to days, seconds of the day and
    microseconds of the second (floor division), and the days must have a
    magnitude of at most 999999999. *)
Definition timedelta_new (h mi s us : Z) : result timedelta :=
  let total := ((h * 3600 + mi * 60 + s) * 1000000 + us) in
  let days := total / 86400000000 in
  let rest := total mod 86400000000 in
  if (days <? -999999999) || (999999999 <? days)
  then raise OverflowError "days must have magnitude <= 999999999"
  else Return (mk_timedelta days (rest / 1000000) (rest mod 1000000)).

End Datetime.

(** ** Unicode strings: lists of code points *)

Module PyUnicode.

Fixpoint replace (old : N) (new : list N) (u : list N) : list N :=
  match u with
  | [] => []
  | c :: u' =>
      if N.eqb c old then (new ++ replace old new u')%list
      else c :: replace old new u'
  end.

(** A [str] literal used where a [unicode] is expected is decoded with
    the default (ASCII) codec. *)
Definition ascii_decode (s : string) : result (list N) :=
  if PyStr.forallb (fun c => (N_of_ascii c <? 128)%N) s
  then Return (PyStr.ords s)
  else raise UnicodeDecodeError "'ascii' codec can't decode byte: ordinal not in range(128)".

Definition contains (c : N) (u : list N) : bool :=
  existsb (N.eqb c) u.

End PyUnicode.

(** The six characters that [escape] rewrites. *)
Definition BACKSLASH : ascii := "\"%char.
Definition NEWLINE : ascii := "010"%char.
Definition CARRIAGE_RETURN : ascii := "013"%char.
Definition SINGLE_QUOTE : ascii := "'"%char.
Definition DOUBLE_QUOTE : ascii := "034"%char.
Definition CTRL_Z : ascii := "026"%char.

Definition str1 (c : ascii) : string := String c EmptyString.
Definition str2 (c d : ascii) : string := String c (String d EmptyString).

(** ** The [HexLiteral] class *)

(** A Python 2 string object: a byte string or a unicode string. *)
Inductive text : Type :=
| TStr (s : string)
| TUnicode (u : list N).

(** A [HexLiteral] is a [str] (its content, [hl_str]) with two attributes. *)
Record HexLiteral : Type :=
  mk_HexLiteral { hl_str : string; hl_charset : string; hl_original : text }.

(** A field descriptor, an element of [MySQLCursor.description]: the
    converter reads its name ([flddsc[0]]), its type code ([flddsc[1]]) and
    its flags ([flddsc[7]]). *)
Record flddsc : Type :=
  mk_flddsc { fd_name : string; fd_type : Z; fd_flags : Z }.

(** A dictionary with integer keys, in insertion order. *)
Module Dict.

Fixpoint set {A : Type} (d : list (Z * A)) (k : Z) (v : A)
  : list (Z * A) :=
  match d with
  | [] => [(k, v)]
  | (k', v') :: d' =>
      if k' =? k then (k, v) :: d' else (k', v') :: set d' k v
  end.

Fixpoint get {A : Type} (d : list (Z * A)) (k : Z) : option A :=
  match d with
  | [] => None
  | (k', v') :: d' => if k' =? k then Some v' else get d' k
  end.

Definition is_empty {A : Type} (d : list (Z * A)) : bool :=
  match d with [] => true | _ => false end.

End Dict.

Section Converter.

(** Floats and [Decimal] objects are opaque to the converter. *)
Variables pyfloat decimal : Type.

Inductive pyval : Type :=
| PNone
| PBool (b : bool)
| PInt (n : Z)
| PLong (n : Z)
| PFloat (f : pyfloat)
| PDecimal (d : decimal)
| PStr (s : string)
| PUnicode (u : list N)
| PHexLiteral (h : HexLiteral)
| PDate (d : date)
| PTime (t : time)
| PDatetime (dt : datetime)
| PTimedelta (td : timedelta)
| PStructTime (st : struct_time)
| PSet (l : list string).

(** [value.__class__.__name__] *)
Definition class_name (value : pyval) : string :=
  match value with
  | PNone => "NoneType"
  | PBool _ => "bool"
  | PInt _ => "int"
  | PLong _ => "long"
  | PFloat _ => "float"
  | PDecimal _ => "Decimal"
  | PStr _ => "str"
  | PUnicode _ => "unicode"
  | PHexLiteral _ => "HexLiteral"
  | PDate _ => "date"
  | PTime _ => "time"
  | PDatetime _ => "datetime"
  | PTimedelta _ => "timedelta"
  | PStructTime _ => "struct_time"
  | PSet _ => "set"
  end.

(** What the converter takes from outside this module: the codecs and
    builtins of the Python runtime, and the tables of
    [mysql.connector.constants] ([FieldType], [FieldFlag],
    [CharacterSet]). *)
Record Runtime : Type := mk_Runtime {
  (** [u.encode(charset)] and [unicode(s, charset)] *)
  codec_encode : string -> list N -> result string;
  codec_decode : string -> string -> result (list N);
  (** [int(v)], [long(v)], [float(v)], [str(v)] on an object that is not
      already of the target class, and [float(s)], [Decimal(s)] *)
  builtin_int : pyval -> result pyval;
  builtin_long : pyval -> result pyval;
  builtin_float : pyval -> result pyval;
  builtin_str : pyval -> result string;
  (** ["%s" % v] on an object that is not a string *)
  percent_s : pyval -> result string;
  (** the truth value of an object that is not a [bool] *)
  truth_value : pyval -> bool;
  float_repr : pyfloat -> string;
  float_of_str : string -> result pyfloat;
  Decimal_str : decimal -> string;
  Decimal_of_str : string -> result decimal;
  (** the message of the [ValueError] of [int(s)] *)
  invalid_literal : string -> string;
  (** [sys.maxint] *)
  sys_maxint : Z;
  (** [time.strftime(fmt, st)] and [d.strftime(fmt)] on dates *)
  time_strftime : string -> struct_time -> result string;
  date_strftime : pyval -> string -> result string;
  (** [FieldType.desc.items()] as (name, code) in iteration order,
      [FieldType.BIT], [FieldFlag.SET], [FieldFlag.BINARY] *)
  FieldType_desc : list (string * Z);
  FieldType_BIT : Z;
  FieldFlag_SET : Z;
  FieldFlag_BINARY : Z;
  (** [CharacterSet.get_charset_info(name)[0]] and
      [CharacterSet.slash_charsets] *)
  get_charset_id : string -> result Z;
  slash_charsets : list Z
}.

Variable rt : Runtime.

(** [str_.encode(charset)]: a byte string is first decoded as ASCII. *)
Definition text_encode (str_ : text) (charset : string) : result string :=
  match str_ with
  | TUnicode u => codec_encode rt charset u
  | TStr s => u <- PyUnicode.ascii_decode s ;; codec_encode rt charset u
  end.

(** [HexLiteral.__new__(cls, str_, charset)] *)
Definition HexLiteral_new (str_ : text) (charset : string)
  : result HexLiteral :=
  encoded <- text_encode str_ charset ;;
  let hexed := map PyNum.fmt_x (PyStr.ords encoded) in
  Return (mk_HexLiteral (PyStr.join hexed) charset str_).

(** [HexLiteral.__str__] *)
Definition HexLiteral_str (self : HexLiteral) : string :=
  "0x" ++ hl_str self.

(** ** [MySQLConverter] *)

(** The methods [_<TYPE>_to_python]; an alias is the method it names. *)
Inductive py_decoder : Type :=
| FLOAT_to_python
| INT_to_python
| LONG_to_python
| DECIMAL_to_python
| BIT_to_python
| DATE_to_python
| TIME_to_python
| DATETIME_to_python
| YEAR_to_python
| SET_to_python
| STRING_to_python
| BLOB_to_python.

Record MySQLConverter : Type := mk_MySQLConverter {
  charset : string;
  charset_id : Z;
  use_unicode : bool;
  _cache_field_types : list (Z * py_decoder)
}.

(** [set_charset] *)
Definition set_charset (self : MySQLConverter) (name : option string)
  : result MySQLConverter :=
  let name := match name with
              | Some n => if String.eqb n "utf8mb4" then Some "utf8" else Some n
              | None => None
              end in
  let cs := match name with Some n => n | None => "utf8" end in
  id <- get_charset_id rt cs ;;
  Return (mk_MySQLConverter cs id (use_unicode self)
                            (_cache_field_types self)).

(** [set_unicode] *)
Definition set_unicode (self : MySQLConverter) (value : bool)
  : MySQLConverter :=
  mk_MySQLConverter (charset self) (charset_id self) value
                    (_cache_field_types self).

(** [MySQLConverter.__init__(charset, use_unicode)] *)
Definition MySQLConverter_init (cs : option string) (uu : bool)
  : result MySQLConverter :=
  self <- set_charset (mk_MySQLConverter EmptyString 0 false []) cs ;;
  Return (set_unicode self uu).

(** ** [escape] and [quote] *)

Definition escape_str (value : string) : string :=
  let res := value in
  let res := PyStr.replace BACKSLASH (str2 BACKSLASH BACKSLASH) res in
  let res := PyStr.replace NEWLINE "\n" res in
  let res := PyStr.replace CARRIAGE_RETURN "\r" res in
  let res := PyStr.replace SINGLE_QUOTE (str2 BACKSLASH SINGLE_QUOTE) res in
  let res := PyStr.replace DOUBLE_QUOTE (str2 BACKSLASH DOUBLE_QUOTE) res in
  let res := PyStr.replace CTRL_Z (str2 BACKSLASH CTRL_Z) res in
  res.

Definition escape_unicode (value : list N) : list N :=
  let rep old new :=
    PyUnicode.replace (N_of_ascii old) (PyStr.ords new) in
  let res := value in
  let res := rep BACKSLASH (str2 BACKSLASH BACKSLASH) res in
  let res := rep NEWLINE "\n" res in
  let res := rep CARRIAGE_RETURN "\r" res in
  let res := rep SINGLE_QUOTE (str2 BACKSLASH SINGLE_QUOTE) res in
  let res := rep DOUBLE_QUOTE (str2 BACKSLASH DOUBLE_QUOTE) res in
  let res := rep CTRL_Z (str2 BACKSLASH CTRL_Z) res in
  res.

Definition no_attribute {A : Type} (value : pyval) (attr : string)
  : result A :=
  raise AttributeError
    ("'" ++ class_name value ++ "' object has no attribute '" ++ attr ++ "'").

(** [MySQLConverter.escape] *)
Definition escape (value : pyval) : result pyval :=
  match value with
  | PNone => Return value
  | PBool _ | PInt _ | PFloat _ | PLong _ | PDecimal _ | PHexLiteral _ =>
      Return value
  | PStr s => Return (PStr (escape_str s))
  | PUnicode u => Return (PUnicode (escape_unicode u))
  | PDate _ | PTime _ | PDatetime _ =>
      (* [replace] of these classes takes field values *)
      raise TypeError "an integer is required"
  | PTimedelta _ | PStructTime _ | PSet _ => no_attribute value "replace"
  end.

(** [MySQLConverter.quote] *)
Definition quote (buf : pyval) : result pyval :=
  match buf with
  | PInt n | PLong n => Return (PStr (PyNum.str_of_Z n))
  | PBool b => Return (PStr (if b then "True" else "False"))
  | PDecimal d => Return (PStr (Decimal_str rt d))
  | PHexLiteral h => Return (PStr (HexLiteral_str h))
  | PFloat f => Return (PStr (float_repr rt f))
  | PNone => Return (PStr "NULL")
  | PStr s => Return (PStr ("'" ++ s ++ "'"))
  | PUnicode u =>
      Return (PUnicode (N_of_ascii SINGLE_QUOTE :: u
                          ++ [N_of_ascii SINGLE_QUOTE])%list)
  | other => s <- percent_s rt other ;; Return (PStr ("'" ++ s ++ "'"))
  end.

(** ** [to_mysql] and its methods *)

Definition attr_year (value : pyval) : result Z :=
  match value with
  | PDate d => Return (d_year d)
  | PDatetime dt => Return (dt_year dt)
  | _ => no_attribute value "year"
  end.

Definition attr_month (value : pyval) : result Z :=
  match value with
  | PDate d => Return (d_month d)
  | PDatetime dt => Return (dt_month dt)
  | _ => no_attribute value "month"
  end.

Definition attr_day (value : pyval) : result Z :=
  match value with
  | PDate d => Return (d_day d)
  | PDatetime dt => Return (dt_day dt)
  | _ => no_attribute value "day"
  end.

Definition attr_hour (value : pyval) : result Z :=
  match value with
  | PTime t => Return (t_hour t)
  | PDatetime dt => Return (dt_hour dt)
  | _ => no_attribute value "hour"
  end.

Definition attr_minute (value : pyval) : result Z :=
  match value with
  | PTime t => Return (t_minute t)
  | PDatetime dt => Return (dt_minute dt)
  | _ => no_attribute value "minute"
  end.

Definition attr_second (value : pyval) : result Z :=
  match value with
  | PTime t => Return (t_second t)
  | PDatetime dt => Return (dt_second dt)
  | _ => no_attribute value "second"
  end.

Definition attr_microsecond (value : pyval) : result Z :=
  match value with
  | PTime t => Return (t_microsecond t)
  | PDatetime dt => Return (dt_microsecond dt)
  | _ => no_attribute value "microsecond"
  end.

Definition attr_days (value : pyval) : result Z :=
  match value with
  | PTimedelta td => Return (td_days td)
  | _ => no_attribute value "days"
  end.

Definition attr_seconds (value : pyval) : result Z :=
  match value with
  | PTimedelta td => Return (td_seconds td)
  | _ => no_attribute value "seconds"
  end.

Definition attr_microseconds (value : pyval) : result Z :=
  match value with
  | PTimedelta td => Return (td_microseconds td)
  | _ => no_attribute value "microseconds"
  end.

Definition _int_to_mysql (self : MySQLConverter) (value : pyval)
  : result pyval :=
  match value with
  | PInt n => Return (PInt n)
  | _ => builtin_int rt value
  end.

Definition _long_to_mysql (self : MySQLConverter) (value : pyval)
  : result pyval :=
  match value with
  | PLong n => Return (PLong n)
  | _ => builtin_long rt value
  end.

Definition _float_to_mysql (self : MySQLConverter) (value : pyval)
  : result pyval :=
  match value with
  | PFloat f => Return (PFloat f)
  | _ => builtin_float rt value
  end.

Definition _str_to_mysql (self : MySQLConverter) (value : pyval)
  : result pyval :=
  match value with
  | PStr s => Return (PStr s)
  | PHexLiteral h => Return (PStr (HexLiteral_str h))
  | _ => s <- builtin_str rt value ;; Return (PStr s)
  end.

Definition _unicode_to_mysql (self : MySQLConverter) (value : pyval)
  : result pyval :=
  str_ <- match value with
          | PUnicode u => Return (TUnicode u)
          | PStr s => Return (TStr s)
          | PHexLiteral h => Return (TStr (hl_str h))
          | _ => no_attribute value "encode"
          end ;;
  encoded <- text_encode str_ (charset self) ;;
  if existsb (Z.eqb (charset_id self)) (slash_charsets rt)
     && PyStr.contains BACKSLASH encoded
  then h <- HexLiteral_new str_ (charset self) ;; Return (PHexLiteral h)
  else Return (PStr encoded).

Definition _bool_to_mysql (self : MySQLConverter) (value : pyval)
  : result pyval :=
  match value with
  | PBool b => if b then Return (PInt 1) else Return (PInt 0)
  | _ => if truth_value rt value then Return (PInt 1) else Return (PInt 0)
  end.

Definition _nonetype_to_mysql (self : MySQLConverter) (value : pyval)
  : result pyval :=
  Return PNone.

Definition _datetime_to_mysql (self : MySQLConverter) (value : pyval)
  : result pyval :=
  us <- attr_microsecond value ;;
  y <- attr_year value ;; m <- attr_month value ;; d <- attr_day value ;;
  h <- attr_hour value ;; mi <- attr_minute value ;;
  s <- attr_second value ;;
  let base :=
    PyNum.str_of_Z y ++ "-" ++ PyNum.fmt_0d 2 m ++ "-" ++ PyNum.fmt_0d 2 d
    ++ " " ++ PyNum.fmt_0d 2 h ++ ":" ++ PyNum.fmt_0d 2 mi ++ ":"
    ++ PyNum.fmt_0d 2 s in
  if negb (us =? 0)
  then Return (PStr (base ++ "." ++ PyNum.fmt_0d 6 us))
  else Return (PStr base).

Definition _date_to_mysql (self : MySQLConverter) (value : pyval)
  : result pyval :=
  y <- attr_year value ;; m <- attr_month value ;; d <- attr_day value ;;
  Return (PStr (PyNum.str_of_Z y ++ "-" ++ PyNum.fmt_0d 2 m ++ "-"
                ++ PyNum.fmt_0d 2 d)).

(** [value.strftime(fmt)] where [fmt] starts with [%H:%M:%S]: a [time]
    renders its three fields on two digits each and keeps the rest of the
    format, in which [%%] stands for a percent sign. *)
Definition strftime_HMS (value : pyval) (rest : string) (fmt : string)
  : result string :=
  match value with
  | PTime t =>
      Return (PyNum.fmt_0d 2 (t_hour t) ++ ":" ++ PyNum.fmt_0d 2 (t_minute t)
              ++ ":" ++ PyNum.fmt_0d 2 (t_second t) ++ rest)
  | PDate _ | PDatetime _ => date_strftime rt value fmt
  | _ => no_attribute value "strftime"
  end.

Definition _time_to_mysql (self : MySQLConverter) (value : pyval)
  : result pyval :=
  us <- attr_microsecond value ;;
  if negb (us =? 0)
  then
    (* the format left by [strftime] is ["HH:MM:SS.%06d"] *)
    hms <- strftime_HMS value "." "%H:%M:%S.%%06d" ;;
    Return (PStr (hms ++ PyNum.fmt_0d 6 us))
  else
    hms <- strftime_HMS value EmptyString "%H:%M:%S" ;;
    Return (PStr hms).

Definition _struct_time_to_mysql (self : MySQLConverter) (value : pyval)
  : result pyval :=
  match value with
  | PStructTime st =>
      s <- time_strftime rt "%Y-%m-%d %H:%M:%S" st ;; Return (PStr s)
  | _ => raise TypeError "argument must be 9-item sequence"
  end.

Definition _timedelta_to_mysql (self : MySQLConverter) (value : pyval)
  : result pyval :=
  days <- attr_days value ;;
  secs0 <- attr_seconds value ;;
  let seconds := Z.abs (days * 86400 + secs0) in
  microseconds <- attr_microseconds value ;;
  let '(seconds, mcs) :=
    if negb (microseconds =? 0)
    then (if days <? 0 then (seconds - 1, 1000000 - microseconds)
          else (seconds, microseconds))
    else (seconds, 0) in
  let sign := if days <? 0 then "-" else EmptyString in
  let hours := seconds / 3600 in
  let remainder := seconds mod 3600 in
  let mins := remainder / 60 in
  let secs := remainder mod 60 in
  let hms :=
    PyNum.fmt_0d 2 hours ++ ":" ++ PyNum.fmt_0d 2 mins ++ ":"
    ++ PyNum.fmt_0d 2 secs in
  if negb (microseconds =? 0)
  then Return (PStr (sign ++ hms ++ "." ++ PyNum.fmt_0d 6 mcs))
  else Return (PStr (sign ++ hms)).

Definition _decimal_to_mysql (self : MySQLConverter) (value : pyval)
  : result pyval :=
  match value with
  | PDecimal d => Return (PStr (Decimal_str rt d))
  | _ => Return PNone
  end.

(** [getattr(self, name)] over the [_<type>_to_mysql] methods of the
    class; [None] stands for [AttributeError]. *)
Definition getattr_to_mysql (name : string)
  : option (MySQLConverter -> pyval -> result pyval) :=
  if String.eqb name "_int_to_mysql" then Some _int_to_mysql
  else if String.eqb name "_long_to_mysql" then Some _long_to_mysql
  else if String.eqb name "_float_to_mysql" then Some _float_to_mysql
  else if String.eqb name "_str_to_mysql" then Some _str_to_mysql
  else if String.eqb name "_unicode_to_mysql" then Some _unicode_to_mysql
  else if String.eqb name "_bool_to_mysql" then Some _bool_to_mysql
  else if String.eqb name "_nonetype_to_mysql" then Some _nonetype_to_mysql
  else if String.eqb name "_datetime_to_mysql" then Some _datetime_to_mysql
  else if String.eqb name "_date_to_mysql" then Some _date_to_mysql
  else if String.eqb name "_time_to_mysql" then Some _time_to_mysql
  else if String.eqb name "_struct_time_to_mysql"
  then Some _struct_time_to_mysql
  else if String.eqb name "_timedelta_to_mysql" then Some _timedelta_to_mysql
  else if String.eqb name "_decimal_to_mysql" then Some _decimal_to_mysql
  else None.

Definition cannot_convert (type_name : string) : exn :=
  mk_exn TypeError
    ("Python '" ++ type_name ++ "' cannot be converted to a MySQL type").

(** [MySQLConverter.to_mysql] *)
Definition to_mysql (self : MySQLConverter) (value : pyval) : result pyval :=
  let type_name := PyStr.lower (class_name value) in
  try_except
    (match getattr_to_mysql ("_" ++ type_name ++ "_to_mysql") with
     | Some method => method self value
     | None => raise AttributeError "no such attribute"
     end)
    is_AttributeError
    (fun _ => Raise (cannot_convert type_name)).

(** ** [to_python] and its methods *)

(** [int(s)] on a byte string *)
Definition int_ (s : string) : result Z :=
  match PyNum.py_int s with
  | Some z => Return z
  | None => raise ValueError (invalid_literal rt s)
  end.

(** The object of an integer: an [int] up to [sys.maxint], else a [long] *)
Definition int_obj (z : Z) : pyval :=
  if (- sys_maxint rt - 1 <=? z) && (z <=? sys_maxint rt) then PInt z
  else PLong z.

Fixpoint ints (l : list string) : result (list Z) :=
  match l with
  | [] => Return []
  | s :: l' => z <- int_ s ;; r <- ints l' ;; Return (z :: r)
  end.

(** [(a, b) = l] and [(a, b, c) = l] *)
Definition unpack2 {A : Type} (l : list A) : result (A * A) :=
  match l with
  | [a; b] => Return (a, b)
  | [] | [_] => raise ValueError "need more values to unpack"
  | _ => raise ValueError "too many values to unpack"
  end.

Definition unpack3 {A : Type} (l : list A) : result (A * A * A) :=
  match l with
  | [a; b; c] => Return (a, b, c)
  | [] | [_] | [_; _] => raise ValueError "need more values to unpack"
  | _ => raise ValueError "too many values to unpack"
  end.

Definition _FLOAT_to_python (self : MySQLConverter) (value : string)
    (desc : flddsc) : result pyval :=
  f <- float_of_str rt value ;; Return (PFloat f).

Definition _INT_to_python (self : MySQLConverter) (value : string)
    (desc : flddsc) : result pyval :=
  z <- int_ value ;; Return (int_obj z).

Definition _LONG_to_python (self : MySQLConverter) (value : string)
    (desc : flddsc) : result pyval :=
  z <- int_ value ;; Return (int_obj z).

Definition _DECIMAL_to_python (self : MySQLConverter) (value : string)
    (desc : flddsc) : result pyval :=
  d <- Decimal_of_str rt value ;; Return (PDecimal d).

(** [struct.unpack('>Q', s)[0]] *)
Definition unpack_Q (s : string) : result Z :=
  if Nat.eqb (String.length s) 8
  then Return (fold_left (fun acc b => acc * 256 + Z.of_N b) (PyStr.ords s) 0)
  else raise StructError "unpack requires a string argument of length 8".

Definition _BIT_to_python (self : MySQLConverter) (value : string)
    (dsc : flddsc) : result pyval :=
  let int_val := value in
  let int_val :=
    if (String.length int_val <? 8)%nat
    then PyStr.repeat "000"%char (8 - String.length int_val) ++ int_val
    else int_val in
  z <- unpack_Q int_val ;; Return (int_obj z).

Definition _DATE_to_python (self : MySQLConverter) (value : string)
    (dsc : flddsc) : result pyval :=
  try_except
    (let parts := PyStr.split "-" value in
     p0 <- getitem parts 0 ;; y <- int_ p0 ;;
     p1 <- getitem parts 1 ;; m <- int_ p1 ;;
     p2 <- getitem parts 2 ;; d <- int_ p2 ;;
     dv <- Datetime.date_new y m d ;;
     Return (PDate dv))
    is_ValueError
    (fun _ => Return PNone).

Definition _TIME_to_python (self : MySQLConverter) (value : string)
    (dsc : flddsc) : result pyval :=
  p <- try_except
         (q <- unpack2 (PyStr.split "." value) ;;
          mcs <- int_ (PyStr.ljust 6 "0" (snd q)) ;;
          Return (fst q, mcs))
         is_ValueError
         (fun _ => Return (value, 0)) ;;
  let '(hms, mcs) := p in
  try_except
    (l <- ints (PyStr.split ":" hms) ;;
     t <- unpack3 l ;;
     let '(hours, mins, secs) := t in
     c <- match value with
          | String c _ => Return c
          | EmptyString => raise IndexError "string index out of range"
          end ;;
     let '(mins, secs, mcs) :=
       if Ascii.eqb c "-" then (- mins, - secs, - mcs)
       else (mins, secs, mcs) in
     time_val <- Datetime.timedelta_new hours mins secs mcs ;;
     Return (PTimedelta time_val))
    is_ValueError
    (fun _ => raise ValueError
                ("Could not convert " ++ value
                 ++ " to python datetime.timedelta")).

Definition _DATETIME_to_python (self : MySQLConverter) (value : string)
    (dsc : flddsc) : result pyval :=
  try_except
    (p <- unpack2 (PyStr.split " " value) ;;
     let '(date_, time_) := p in
     q <- (if (8 <? String.length time_)%nat
           then r <- unpack2 (PyStr.split "." time_) ;;
                mcs <- int_ (PyStr.ljust 6 "0" (snd r)) ;;
                Return (fst r, mcs)
           else Return (time_, 0)) ;;
     let '(hms, mcs) := q in
     a <- ints (PyStr.split "-" date_) ;;
     b <- ints (PyStr.split ":" hms) ;;
     let dtval := (a ++ b ++ [mcs])%list in
     datetime_val <- Datetime.datetime_new dtval ;;
     Return (PDatetime datetime_val))
    is_ValueError
    (fun _ => Return PNone).

Definition _YEAR_to_python (self : MySQLConverter) (value : string)
    (desc : flddsc) : result pyval :=
  year <- try_except (int_ value) is_ValueError
            (fun _ => raise ValueError
                        ("Failed converting YEAR to int (" ++ value ++ ")")) ;;
  Return (int_obj year).

(** [set(l)] keeps one copy of each element. *)
Definition _SET_to_python (self : MySQLConverter) (value : string)
    (dsc : flddsc) : result pyval :=
  Return (PSet (nodup string_dec (PyStr.split "," value))).

Definition _STRING_to_python (self : MySQLConverter) (value : string)
    (dsc : flddsc) : result pyval :=
  if negb (Z.land (fd_flags dsc) (FieldFlag_SET rt) =? 0)
  then _SET_to_python self value dsc
  else if negb (Z.land (fd_flags dsc) (FieldFlag_BINARY rt) =? 0)
  then Return (PStr value)
  else if use_unicode self
  then u <- codec_decode rt (charset self) value ;; Return (PUnicode u)
  else Return (PStr value).

Definition _BLOB_to_python (self : MySQLConverter) (value : string)
    (dsc : flddsc) : result pyval :=
  if negb (Z.land (fd_flags dsc) (FieldFlag_BINARY rt) =? 0)
  then Return (PStr value)
  else _STRING_to_python self value dsc.

(** [getattr(self, name)] over the [_<TYPE>_to_python] methods and
    aliases of the class; [None] stands for [AttributeError]. *)
Definition getattr_to_python (name : string) : option py_decoder :=
  let named n := String.eqb name n in
  if named "_FLOAT_to_python" || named "_DOUBLE_to_python"
  then Some FLOAT_to_python
  else if named "_INT_to_python" || named "_TINY_to_python"
          || named "_SHORT_to_python" || named "_INT24_to_python"
  then Some INT_to_python
  else if named "_LONG_to_python" || named "_LONGLONG_to_python"
  then Some LONG_to_python
  else if named "_DECIMAL_to_python" || named "_NEWDECIMAL_to_python"
  then Some DECIMAL_to_python
  else if named "_BIT_to_python" then Some BIT_to_python
  else if named "_DATE_to_python" || named "_NEWDATE_to_python"
  then Some DATE_to_python
  else if named "_TIME_to_python" then Some TIME_to_python
  else if named "_DATETIME_to_python" || named "_TIMESTAMP_to_python"
  then Some DATETIME_to_python
  else if named "_YEAR_to_python" then Some YEAR_to_python
  else if named "_SET_to_python" then Some SET_to_python
  else if named "_STRING_to_python" || named "_VAR_STRING_to_python"
  then Some STRING_to_python
  else if named "_BLOB_to_python" || named "_LONG_BLOB_to_python"
          || named "_MEDIUM_BLOB_to_python" || named "_TINY_BLOB_to_python"
  then Some BLOB_to_python
  else None.

(** Calling a bound method of the cache. *)
Definition call_decoder (m : py_decoder)
  : MySQLConverter -> string -> flddsc -> result pyval :=
  match m with
  | FLOAT_to_python => _FLOAT_to_python
  | INT_to_python => _INT_to_python
  | LONG_to_python => _LONG_to_python
  | DECIMAL_to_python => _DECIMAL_to_python
  | BIT_to_python => _BIT_to_python
  | DATE_to_python => _DATE_to_python
  | TIME_to_python => _TIME_to_python
  | DATETIME_to_python => _DATETIME_to_python
  | YEAR_to_python => _YEAR_to_python
  | SET_to_python => _SET_to_python
  | STRING_to_python => _STRING_to_python
  | BLOB_to_python => _BLOB_to_python
  end.

(** The loop that fills [_cache_field_types] from [FieldType.desc]. *)
Definition fill_cache (items : list (string * Z))
    (cache : list (Z * py_decoder)) : list (Z * py_decoder) :=
  fold_left
    (fun cache item =>
       match getattr_to_python ("_" ++ fst item ++ "_to_python") with
       | Some method => Dict.set cache (snd item) method
       | None => cache
       end)
    items cache.

Definition NUL : string := str1 "000"%char.

(** The cache is filled on the first call that needs it. *)
Definition ensure_cache (self : MySQLConverter) : MySQLConverter :=
  if Dict.is_empty (_cache_field_types self)
  then mk_MySQLConverter (charset self) (charset_id self)
         (use_unicode self) (fill_cache (FieldType_desc rt) [])
  else self.

(** The [except] clauses of [to_python] around the call of the method. *)
Definition resignal (dsc : flddsc) (value : string) (body : result pyval)
  : result pyval :=
  match body with
  | Return r => Return r
  | Raise err =>
      if is_KeyError (exn_kind err) then Return (PStr value)
      else if is_ValueError (exn_kind err)
      then raise ValueError (exn_msg err ++ " (field " ++ fd_name dsc ++ ")")
      else if is_TypeError (exn_kind err)
      then raise TypeError (exn_msg err ++ " (field " ++ fd_name dsc ++ ")")
      else Raise err
  end.

(** [MySQLConverter.to_python]: the result and the converter, whose
    cache the call may have filled. *)
Definition to_python (self : MySQLConverter) (dsc : flddsc)
    (value : option string) : result pyval * MySQLConverter :=
  match value with
  | None => (Return PNone, self)
  | Some v =>
      if String.eqb v NUL && negb (fd_type dsc =? FieldType_BIT rt)
      then (Return PNone, self)
      else
        let self := ensure_cache self in
        (resignal dsc v
           (match Dict.get (_cache_field_types self) (fd_type dsc) with
            | Some method => call_decoder method self v dsc
            | None => raise KeyError (PyNum.str_of_Z (fd_type dsc))
            end),
         self)
  end.

(** ** Vocabulary of the properties *)

(** The method that [to_python] calls for a type code, once the cache is
    filled from [FieldType.desc]. *)
Definition decoder_of (type_code : Z) : option py_decoder :=
  Dict.get (fill_cache (FieldType_desc rt) []) type_code.

(** The states of the cache: not yet filled, or filled by [to_python]. *)
Definition cache_ok (self : MySQLConverter) : Prop :=
  _cache_field_types self = []
  \/ _cache_field_types self = fill_cache (FieldType_desc rt) [].

(** A text value as an object, and the same text between single quotes. *)
Definition text_obj (t : text) : pyval :=
  match t with
  | TStr s => PStr s
  | TUnicode u => PUnicode u
  end.

Definition single_quoted (t : text) : text :=
  match t with
  | TStr s => TStr ("'" ++ s ++ "'")
  | TUnicode u =>
      TUnicode (N_of_ascii SINGLE_QUOTE :: u ++ [N_of_ascii SINGLE_QUOTE])%list
  end.

(** The in-range dates, times of day and date-times (naive or aware), the
    method that decodes the column type of each, and what that method
    gives back: a TIME column is decoded as a duration, a DATETIME column
    as a naive date-time. *)
Definition in_range (v : pyval) : Prop :=
  match v with
  | PDate d =>
      Datetime.MINYEAR <= d_year d <= Datetime.MAXYEAR
      /\ 1 <= d_month d <= 12
      /\ 1 <= d_day d <= Datetime.days_in_month (d_year d) (d_month d)
  | PTime t =>
      0 <= t_hour t <= 23 /\ 0 <= t_minute t <= 59
      /\ 0 <= t_second t <= 59 /\ 0 <= t_microsecond t <= 999999
  | PDatetime dt =>
      (Datetime.MINYEAR <= dt_year dt <= Datetime.MAXYEAR
       /\ 1 <= dt_month dt <= 12
       /\ 1 <= dt_day dt <= Datetime.days_in_month (dt_year dt) (dt_month dt))
      /\ 0 <= dt_hour dt <= 23 /\ 0 <= dt_minute dt <= 59
      /\ 0 <= dt_second dt <= 59 /\ 0 <= dt_microsecond dt <= 999999
  | _ => False
  end.

Definition field_decoder_for (v : pyval) : option py_decoder :=
  match v with
  | PDate _ => Some DATE_to_python
  | PTime _ => Some TIME_to_python
  | PDatetime _ => Some DATETIME_to_python
  | _ => None
  end.

Definition decoded_form (v : pyval) : pyval :=
  match v with
  | PTime t =>
      PTimedelta
        (mk_timedelta 0 (t_hour t * 3600 + t_minute t * 60 + t_second t)
                      (t_microsecond t))
  | PDatetime dt => PDatetime (naive dt)
  | _ => v
  end.

(** The values that are decoded to themselves: dates and naive
    date-times. *)
Definition decoded_as_itself (v : pyval) : Prop :=
  match v with
  | PDate _ => True
  | PDatetime dt => dt_tzinfo dt = None
  | _ => False
  end.

End Converter.

Arguments PNone {pyfloat decimal}.
Arguments PBool {pyfloat decimal} b.
Arguments PInt {pyfloat decimal} n.
Arguments PLong {pyfloat decimal} n.
Arguments PFloat {pyfloat decimal} f.
Arguments PDecimal {pyfloat decimal} d.
Arguments PStr {pyfloat decimal} s.
Arguments PUnicode {pyfloat decimal} u.
Arguments PHexLiteral {pyfloat decimal} h.
Arguments PDate {pyfloat decimal} d.
Arguments PTime {pyfloat decimal} t.
Arguments PDatetime {pyfloat decimal} dt.
Arguments PTimedelta {pyfloat decimal} td.
Arguments PStructTime {pyfloat decimal} st.
Arguments PSet {pyfloat decimal} l.
Arguments codec_encode {pyfloat decimal} r.
Arguments codec_decode {pyfloat decimal} r.
Arguments builtin_int {pyfloat decimal} r.
Arguments builtin_long {pyfloat decimal} r.
Arguments builtin_float {pyfloat decimal} r.
Arguments builtin_str {pyfloat decimal} r.
Arguments percent_s {pyfloat decimal} r.
Arguments truth_value {pyfloat decimal} r.
Arguments float_repr {pyfloat decimal} r.
Arguments float_of_str {pyfloat decimal} r.
Arguments Decimal_str {pyfloat decimal} r.
Arguments Decimal_of_str {pyfloat decimal} r.
Arguments invalid_literal {pyfloat decimal} r.
Arguments sys_maxint {pyfloat decimal} r.
Arguments time_strftime {pyfloat decimal} r.
Arguments date_strftime {pyfloat decimal} r.
Arguments FieldType_desc {pyfloat decimal} r.
Arguments FieldType_BIT {pyfloat decimal} r.
Arguments FieldFlag_SET {pyfloat decimal} r.
Arguments FieldFlag_BINARY {pyfloat decimal} r.
Arguments get_charset_id {pyfloat decimal} r.
Arguments slash_charsets {pyfloat decimal} r.
Arguments class_name {pyfloat decimal} value.
Arguments escape {pyfloat decimal} value.
Arguments quote {pyfloat decimal} rt buf.
Arguments text_encode {pyfloat decimal} rt str_ charset.
Arguments HexLiteral_new {pyfloat decimal} rt str_ charset.
Arguments to_mysql {pyfloat decimal} rt self value.
Arguments to_python {pyfloat decimal} rt self dsc value.
Arguments ensure_cache {pyfloat decimal} rt self.
Arguments resignal {pyfloat decimal} dsc value body.
Arguments decoder_of {pyfloat decimal} rt type_code.
Arguments cache_ok {pyfloat decimal} rt self.
Arguments text_obj {pyfloat decimal} t.
Arguments in_range {pyfloat decimal} v.
Arguments field_decoder_for {pyfloat decimal} v.
Arguments decoded_form {pyfloat decimal} v.
Arguments decoded_as_itself {pyfloat decimal} v.
Arguments call_decoder {pyfloat decimal} rt m.
Arguments int_ {pyfloat decimal} rt s.
Arguments ints {pyfloat decimal} rt l.
Arguments int_obj {pyfloat decimal} rt z.
Arguments _unicode_to_mysql {pyfloat decimal} rt self value.
Arguments _BIT_to_python {pyfloat decimal} rt self value dsc.
Arguments _DATE_to_python {pyfloat decimal} rt self value dsc.
Arguments _TIME_to_python {pyfloat decimal} rt self value dsc.
Arguments _DATETIME_to_python {pyfloat decimal} rt self value dsc.
Arguments _YEAR_to_python {pyfloat decimal} rt self value desc.
Arguments _STRING_to_python {pyfloat decimal} rt self value dsc.
Arguments _BLOB_to_python {pyfloat decimal} rt self value dsc.

(** ** A runtime to evaluate the converter on

    The [latin1] and [ascii] codecs, the type codes, flags and character
    set ids of the MySQL client/server protocol, and a 64-bit [sys.maxint].
    Floats and [Decimal] objects are carried as the text they were read
    from; the remaining builtins refuse every object. *)

Module Latin1.

Definition encode (charset : string) (u : list N) : result string :=
  if String.eqb charset "latin1"
  then (if forallb (fun c => (c <? 256)%N) u then Return (PyStr.chrs u)
        else raise UnicodeEncodeError
               "'latin-1' codec can't encode character: ordinal not in range(256)")
  else if String.eqb charset "ascii"
  then (if forallb (fun c => (c <? 128)%N) u then Return (PyStr.chrs u)
        else raise UnicodeEncodeError
               "'ascii' codec can't encode character: ordinal not in range(128)")
  else raise LookupError ("unknown encoding: " ++ charset).

Definition decode (charset : string) (s : string) : result (list N) :=
  if String.eqb charset "latin1" then Return (PyStr.ords s)
  else if String.eqb charset "ascii" then PyUnicode.ascii_decode s
  else raise LookupError ("unknown encoding: " ++ charset).

Definition desc : list (string * Z) :=
  [("DECIMAL", 0); ("TINY", 1); ("SHORT", 2); ("LONG", 3); ("FLOAT", 4);
   ("DOUBLE", 5); ("NULL", 6); ("TIMESTAMP", 7); ("LONGLONG", 8);
   ("INT24", 9); ("DATE", 10); ("TIME", 11); ("DATETIME", 12); ("YEAR", 13);
   ("NEWDATE", 14); ("VARCHAR", 15); ("BIT", 16); ("NEWDECIMAL", 246);
   ("ENUM", 247); ("SET", 248); ("TINY_BLOB", 249); ("MEDIUM_BLOB", 250);
   ("LONG_BLOB", 251); ("BLOB", 252); ("VAR_STRING", 253); ("STRING", 254);
   ("GEOMETRY", 255)].

Definition charset_id (name : string) : result Z :=
  if String.eqb name "latin1" then Return 8
  else if String.eqb name "ascii" then Return 11
  else raise LookupError ("Character set '" ++ name ++ "' unsupported.").

Definition refuse {A : Type} (v : pyval string string) : result A :=
  raise TypeError ("unsupported object: " ++ class_name v).

Definition runtime : Runtime string string :=
  {| codec_encode := encode;
     codec_decode := decode;
     builtin_int := refuse;
     builtin_long := refuse;
     builtin_float := refuse;
     builtin_str := refuse;
     percent_s := refuse;
     truth_value := fun _ => true;
     float_repr := fun f => f;
     float_of_str := fun s => Return s;
     Decimal_str := fun d => d;
     Decimal_of_str := fun s => Return s;
     invalid_literal :=
       fun s => "invalid literal for int() with base 10: '" ++ s ++ "'";
     sys_maxint := 9223372036854775807;
     time_strftime := fun _ _ => raise ValueError "unsupported format";
     date_strftime := fun _ _ => raise ValueError "unsupported format";
     FieldType_desc := desc;
     FieldType_BIT := 16;
     FieldFlag_SET := 2048;
     FieldFlag_BINARY := 128;
     get_charset_id := charset_id;
     slash_charsets := [1; 13; 28; 84; 87; 88] |}.

(** [MySQLConverter('latin1', use_unicode)] before its first [to_python] *)
Definition converter (use_unicode : bool) : MySQLConverter :=
  mk_MySQLConverter "latin1" 8 use_unicode [].

Definition field (name : string) (type_code flags : Z) : flddsc :=
  mk_flddsc name type_code flags.

End Latin1.

(** ** Vocabulary of the properties, continued *)

(** The six special characters of [escape]. *)
Definition special_characters : list ascii :=
  [BACKSLASH; NEWLINE; CARRIAGE_RETURN; SINGLE_QUOTE; DOUBLE_QUOTE; CTRL_Z].

Definition is_special (c : ascii) : bool :=
  existsb (Ascii.eqb c) special_characters.

(** A text without special characters. *)
Definition plain (t : text) : bool :=
  match t with
  | TStr s => PyStr.forallb (fun c => negb (is_special c)) s
  | TUnicode u =>
      List.forallb
        (fun c => negb (existsb (fun x => N.eqb (N_of_ascii x) c)
                          special_characters)) u
  end.





(** The hexadecimal encoding of a byte string, two lowercase digits for
    every byte. *)
Definition hex_digit (n : N) : ascii :=
  match n with
  | 0 => "0" | 1 => "1" | 2 => "2" | 3 => "3" | 4 => "4" | 5 => "5"
  | 6 => "6" | 7 => "7" | 8 => "8" | 9 => "9" | 10 => "a" | 11 => "b"
  | 12 => "c" | 13 => "d" | 14 => "e" | _ => "f"
  end%N%char.

Fixpoint hexlify (s : string) : string :=
  match s with
  | EmptyString => EmptyString
  | String c s' =>
      String (hex_digit (N_of_ascii c / 16))
        (String (hex_digit (N_of_ascii c mod 16)) (hexlify s'))
  end.

(** ** Vocabulary of the further properties *)

(** What [escape] writes for one character. *)
Definition escape_char (c : ascii) : string :=
  if Ascii.eqb c BACKSLASH then str2 BACKSLASH BACKSLASH
  else if Ascii.eqb c NEWLINE then str2 BACKSLASH "n"
  else if Ascii.eqb c CARRIAGE_RETURN then str2 BACKSLASH "r"
  else if Ascii.eqb c SINGLE_QUOTE then str2 BACKSLASH SINGLE_QUOTE
  else if Ascii.eqb c DOUBLE_QUOTE then str2 BACKSLASH DOUBLE_QUOTE
  else if Ascii.eqb c CTRL_Z then str2 BACKSLASH CTRL_Z
  else str1 c.

(** One pass over a text, character by character. *)
Fixpoint escape_pass (s : string) : string :=
  match s with
  | EmptyString => EmptyString
  | String c s' => escape_char c ++ escape_pass s'
  end.

(** Reading escape sequences back: a backslash and [n] is a newline, a
    backslash and [r] a carriage return, a backslash and any other
    character that character. *)
Fixpoint unescape (s : string) : string :=
  match s with
  | EmptyString => EmptyString
  | String c s' =>
      if Ascii.eqb c BACKSLASH
      then match s' with
           | EmptyString => str1 c
           | String d s'' =>
               String (if Ascii.eqb d "n" then NEWLINE
                       else if Ascii.eqb d "r" then CARRIAGE_RETURN
                       else d)
                      (unescape s'')
           end
      else String c (unescape s')
  end.

(** A text in which no special character stands bare: every backslash
    opens one of the six escape sequences and no other special character
    occurs outside a sequence. *)
Fixpoint well_escaped (s : string) : bool :=
  match s with
  | EmptyString => true
  | String c s' =>
      if Ascii.eqb c BACKSLASH
      then match s' with
           | EmptyString => false
           | String d s'' =>
               (Ascii.eqb d BACKSLASH || Ascii.eqb d "n" || Ascii.eqb d "r"
                || Ascii.eqb d SINGLE_QUOTE || Ascii.eqb d DOUBLE_QUOTE
                || Ascii.eqb d CTRL_Z)
               && well_escaped s''
           end
      else negb (is_special c) && well_escaped s'
  end.

(** The number of special characters of a text. *)
Fixpoint count_special (s : string) : nat :=
  match s with
  | EmptyString => 0%nat
  | String c s' => ((if is_special c then 1 else 0) + count_special s')%nat
  end.

(** The unsigned integer that a byte string is in big-endian order. *)
Definition big_endian (s : string) : Z :=
  fold_left (fun acc b => acc * 256 + Z.of_N b) (PyStr.ords s) 0.

Definition is_hex_digit (c : ascii) : bool :=
  match c with
  | "0" | "1" | "2" | "3" | "4" | "5" | "6" | "7" | "8" | "9"
  | "a" | "b" | "c" | "d" | "e" | "f" => true
  | _ => false
  end%char.

(** The normalized durations of [datetime.timedelta]. *)
Definition normalized (td : timedelta) : Prop :=
  -999999999 <= td_days td <= 999999999
  /\ 0 <= td_seconds td < 86400
  /\ 0 <= td_microseconds td < 1000000.

(** The characters of the texts of dates, times and durations. *)
Definition is_temporal (c : ascii) : bool :=
  PyStr.is_digit c || Ascii.eqb c "-" || Ascii.eqb c ":" || Ascii.eqb c " "
  || Ascii.eqb c ".".

(** Dates, times of day, date-times and durations. *)
Definition is_temporal_value {pyfloat decimal : Type}
    (v : pyval pyfloat decimal) : bool :=
  match v with
  | PDate _ | PTime _ | PDatetime _ | PTimedelta _ => true
  | _ => false
  end.

(** What [to_mysql] returns: null, a number, a byte string or a
    [HexLiteral]. *)
Definition is_encoded {pyfloat decimal : Type} (w : pyval pyfloat decimal)
  : bool :=
  match w with
  | PNone | PInt _ | PLong _ | PFloat _ | PStr _ | PHexLiteral _ => true
  | _ => false
  end.

(** The year, month and day of a date of the calendar. *)
Definition is_calendar_date (y m d : Z) : bool :=
  (Datetime.MINYEAR <=? y) && (y <=? Datetime.MAXYEAR)
  && (1 <=? m) && (m <=? 12)
  && (1 <=? d) && (d <=? Datetime.days_in_month y m).

(** The TIME text of a sign, hours, minutes, seconds and, or not,
    microseconds. *)
Definition TIME_text (neg : bool) (h mi s : Z) (frac : option Z) : string :=
  let hms :=
    PyNum.fmt_0d 2 h
    ++ String ":" (PyNum.fmt_0d 2 mi ++ String ":" (PyNum.fmt_0d 2 s)) in
  let hms := if neg then String "-" hms else hms in
  match frac with
  | Some us => hms ++ String "." (PyNum.fmt_0d 6 us)
  | None => hms
  end.

(** ** Sample values *)

Module Sample.

(** [HexLiteral(u'\\', 'latin1')], a single backslash *)
Definition backslash_literal : HexLiteral :=
  mk_HexLiteral "5c" "latin1" (TUnicode [92%N]).

(** [u'a\n']: the letter a and a newline *)
Definition letter_newline : list N := [97%N; 10%N].

(** days -1, seconds 86399, microseconds 500000: minus half a second *)
Definition minus_half_second : timedelta := mk_timedelta (-1) 86399 500000.

Definition midnight : time := mk_time 0 0 0 0 None.

Definition a_datetime : datetime := mk_datetime 2014 2 3 4 5 6 7 None.

(** UTC+01:00 *)
Definition CET : tzinfo := mk_tzinfo 60 "CET".

(** The same fields as [a_datetime], in the zone [CET]. *)
Definition an_aware_datetime : datetime :=
  mk_datetime 2014 2 3 4 5 6 7 (Some CET).

Definition DATE_field : flddsc := Latin1.field "d" 10 0.
Definition TIME_field : flddsc := Latin1.field "t" 11 0.
Definition DATETIME_field : flddsc := Latin1.field "dt" 12 0.
Definition YEAR_field : flddsc := Latin1.field "y" 13 0.
Definition BIT_field : flddsc := Latin1.field "b" 16 0.
Definition STRING_field : flddsc := Latin1.field "s" 254 0.

End Sample.

(** The objects of the runtime [Latin1.runtime]. *)
Abbreviation pyobj := (pyval string string).

(** * Properties *)

(** ** Strings *)

Lemma append_empty_r (s : string) : s ++ EmptyString = s.
Proof. induction s as [|c s IH]; simpl; [reflexivity | now rewrite IH]. Qed.

Lemma append_assoc (a b c : string) : (a ++ b) ++ c = a ++ (b ++ c).
Proof. induction a as [|x a IH]; simpl; [reflexivity | now rewrite IH]. Qed.

Lemma length_append (a b : string) :
  String.length (a ++ b) = (String.length a + String.length b)%nat.
Proof. induction a as [|x a IH]; simpl; [reflexivity | now rewrite IH]. Qed.

Lemma length_repeat (c : ascii) (n : nat) :
  String.length (PyStr.repeat c n) = n.
Proof. induction n as [|n IH]; simpl; [reflexivity | now rewrite IH]. Qed.

Lemma forallb_append (p : ascii -> bool) (a b : string) :
  PyStr.forallb p (a ++ b) = PyStr.forallb p a && PyStr.forallb p b.
Proof.
  induction a as [|x a IH]; simpl; [reflexivity|].
  now rewrite IH, andb_assoc.
Qed.

Lemma forallb_repeat (p : ascii -> bool) (c : ascii) (n : nat) :
  p c = true -> PyStr.forallb p (PyStr.repeat c n) = true.
Proof. intros Hc. induction n as [|n IH]; simpl; [reflexivity | now rewrite Hc]. Qed.

Lemma forallb_impl (p q : ascii -> bool) (s : string) :
  (forall c, p c = true -> q c = true) ->
  PyStr.forallb p s = true -> PyStr.forallb q s = true.
Proof.
  intros Hpq. induction s as [|c s IH]; simpl; [reflexivity|].
  intros H. apply andb_true_iff in H as [Hc Hs].
  now rewrite (Hpq _ Hc), IH.
Qed.

Lemma contains_false_iff (c : ascii) (s : string) :
  PyStr.contains c s = false <->
  PyStr.forallb (fun x => negb (Ascii.eqb x c)) s = true.
Proof. unfold PyStr.contains. now rewrite negb_false_iff. Qed.

(** A character that does not occur is not replaced. *)
Lemma replace_absent (old : ascii) (new s : string) :
  PyStr.contains old s = false -> PyStr.replace old new s = s.
Proof.
  rewrite contains_false_iff.
  induction s as [|c s IH]; simpl; [reflexivity|].
  intros H. apply andb_true_iff in H as [Hc Hs].
  apply negb_true_iff in Hc. rewrite Hc. now rewrite IH.
Qed.

Lemma unicode_replace_absent (old : N) (new u : list N) :
  PyUnicode.contains old u = false -> PyUnicode.replace old new u = u.
Proof.
  unfold PyUnicode.contains.
  induction u as [|c u IH]; simpl; [reflexivity|].
  intros H. apply orb_false_iff in H as [Hc Hu].
  rewrite N.eqb_sym, Hc. now rewrite IH.
Qed.

(** Splitting at a separator that the first part does not contain. *)
Lemma split_whole (sep : ascii) (a : string) :
  PyStr.contains sep a = false -> PyStr.split sep a = [a].
Proof.
  rewrite contains_false_iff.
  induction a as [|c a IH]; simpl; [reflexivity|].
  intros H. apply andb_true_iff in H as [Hc Ha].
  apply negb_true_iff in Hc. rewrite Hc. now rewrite IH.
Qed.

Lemma split_first (sep : ascii) (a rest : string) :
  PyStr.contains sep a = false ->
  PyStr.split sep (a ++ String sep rest) = a :: PyStr.split sep rest.
Proof.
  rewrite contains_false_iff.
  induction a as [|c a IH]; simpl.
  - now rewrite Ascii.eqb_refl.
  - intros H. apply andb_true_iff in H as [Hc Ha].
    apply negb_true_iff in Hc. rewrite Hc. now rewrite IH.
Qed.

Lemma lstrip_id (s : string) :
  PyStr.forallb (fun c => negb (PyStr.is_space c)) s = true ->
  PyStr.lstrip s = s.
Proof.
  destruct s as [|c s]; simpl; [reflexivity|].
  intros H. apply andb_true_iff in H as [Hc _].
  apply negb_true_iff in Hc. now rewrite Hc.
Qed.

Lemma rstrip_id (s : string) :
  PyStr.forallb (fun c => negb (PyStr.is_space c)) s = true ->
  PyStr.rstrip s = s.
Proof.
  induction s as [|c s IH]; simpl; [reflexivity|].
  intros H. apply andb_true_iff in H as [Hc Hs].
  apply negb_true_iff in Hc. rewrite (IH Hs), Hc.
  now destruct s.
Qed.

Lemma strip_id (s : string) :
  PyStr.forallb (fun c => negb (PyStr.is_space c)) s = true ->
  PyStr.strip s = s.
Proof.
  intros H. unfold PyStr.strip. rewrite (lstrip_id _ H). now apply rstrip_id.
Qed.

Lemma ljust_long (w : nat) (fill : ascii) (s : string) :
  (w <= String.length s)%nat -> PyStr.ljust w fill s = s.
Proof.
  intros H. unfold PyStr.ljust.
  replace (w - String.length s)%nat with 0%nat by lia.
  apply append_empty_r.
Qed.

Lemma length_rjust (w : nat) (fill : ascii) (s : string) :
  String.length (PyStr.rjust w fill s) = Nat.max w (String.length s).
Proof.
  unfold PyStr.rjust. rewrite length_append, length_repeat. lia.
Qed.

(** ** Decimal digits *)

Lemma is_digit_not_space (c : ascii) :
  PyStr.is_digit c = true -> negb (PyStr.is_space c) = true.
Proof.
  destruct c as [[|] [|] [|] [|] [|] [|] [|] [|]]; simpl;
    intros H; try discriminate H; reflexivity.
Qed.

Lemma is_digit_not_sep (sep c : ascii) :
  PyStr.is_digit sep = false ->
  PyStr.is_digit c = true -> negb (Ascii.eqb c sep) = true.
Proof.
  intros Hsep Hc. apply negb_true_iff. apply Ascii.eqb_neq.
  intros ->. congruence.
Qed.

Lemma digits_no_sep (sep : ascii) (s : string) :
  PyStr.is_digit sep = false ->
  PyStr.forallb PyStr.is_digit s = true -> PyStr.contains sep s = false.
Proof.
  intros Hsep H. apply contains_false_iff.
  revert H. apply forallb_impl. intros c. now apply is_digit_not_sep.
Qed.

Lemma string_of_uint_digits (d : Decimal.uint) :
  PyStr.forallb PyStr.is_digit (DecimalString.NilEmpty.string_of_uint d) = true.
Proof. induction d; simpl; auto. Qed.

Lemma to_uint_nonnil (n : N) : N.to_uint n <> Decimal.Nil.
Proof.
  destruct n as [|p]; simpl; [discriminate|].
  intros H. apply (f_equal N.of_uint) in H.
  change (N.of_uint (N.to_uint (N.pos p)) = 0%N) in H.
  rewrite DecimalN.Unsigned.of_to in H. discriminate H.
Qed.

Lemma str_of_N_digits (n : N) :
  PyStr.forallb PyStr.is_digit (PyNum.str_of_N n) = true.
Proof. apply string_of_uint_digits. Qed.

Lemma str_of_N_nonempty (n : N) : PyNum.str_of_N n <> EmptyString.
Proof.
  unfold PyNum.str_of_N. pose proof (to_uint_nonnil n) as H.
  destruct (N.to_uint n); simpl; congruence.
Qed.

Lemma uint_of_string_zeros (k : nat) (s : string) :
  option_map N.of_uint
    (DecimalString.NilEmpty.uint_of_string (PyStr.repeat "0" k ++ s))
  = option_map N.of_uint (DecimalString.NilEmpty.uint_of_string s).
Proof.
  induction k as [|k IH]; simpl; [reflexivity|].
  rewrite <- IH.
  now destruct (DecimalString.NilEmpty.uint_of_string (PyStr.repeat "0" k ++ s)).
Qed.

Lemma digits_value_some (s : string) (z : Z) :
  s <> EmptyString ->
  option_map N.of_uint (DecimalString.NilEmpty.uint_of_string s)
  = Some (Z.to_N z) ->
  0 <= z -> PyNum.digits_value s = Some z.
Proof.
  intros Hs H Hz. unfold PyNum.digits_value.
  destruct s as [|c s]; [congruence|].
  destruct (DecimalString.NilEmpty.uint_of_string (String c s)) as [d|];
    simpl in *; [|discriminate].
  injection H as H. rewrite H. f_equal. lia.
Qed.

(** [int()] on a string of digits reads its digits. *)
Lemma py_int_digits (s : string) :
  PyStr.forallb PyStr.is_digit s = true ->
  PyNum.py_int s = PyNum.digits_value s.
Proof.
  intros H. unfold PyNum.py_int.
  rewrite strip_id by (revert H; apply forallb_impl, is_digit_not_space).
  destruct s as [|c s]; [reflexivity|].
  simpl in H. apply andb_true_iff in H as [Hc _].
  destruct c as [[|] [|] [|] [|] [|] [|] [|] [|]]; simpl in Hc;
    try discriminate Hc; reflexivity.
Qed.

Lemma rjust_digits (w : nat) (n : N) :
  PyStr.forallb PyStr.is_digit (PyStr.rjust w "0" (PyNum.str_of_N n)) = true.
Proof.
  unfold PyStr.rjust. rewrite forallb_append, str_of_N_digits, andb_true_r.
  now apply forallb_repeat.
Qed.

Lemma fmt_0d_digits (w : nat) (z : Z) :
  0 <= z -> PyStr.forallb PyStr.is_digit (PyNum.fmt_0d w z) = true.
Proof.
  intros Hz. unfold PyNum.fmt_0d.
  destruct (Z.ltb_spec z 0); [lia|]. apply rjust_digits.
Qed.

Lemma str_of_Z_digits (z : Z) :
  0 <= z -> PyStr.forallb PyStr.is_digit (PyNum.str_of_Z z) = true.
Proof.
  intros Hz. unfold PyNum.str_of_Z.
  destruct (Z.ltb_spec z 0); [lia|]. apply str_of_N_digits.
Qed.

(** Reading back what [%0wd] wrote. *)
Lemma py_int_fmt_0d (w : nat) (z : Z) :
  0 <= z -> PyNum.py_int (PyNum.fmt_0d w z) = Some z.
Proof.
  intros Hz. rewrite py_int_digits by now apply fmt_0d_digits.
  unfold PyNum.fmt_0d. destruct (Z.ltb_spec z 0); [lia|].
  apply digits_value_some; [| |assumption].
  - unfold PyStr.rjust. pose proof (str_of_N_nonempty (Z.to_N z)) as Hne.
    destruct (PyStr.repeat "0" (w - String.length (PyNum.str_of_N (Z.to_N z))));
      simpl; [assumption | discriminate].
  - unfold PyStr.rjust. rewrite uint_of_string_zeros.
    unfold PyNum.str_of_N. rewrite DecimalString.NilEmpty.usu. simpl.
    now rewrite DecimalN.Unsigned.of_to.
Qed.

(** Reading back what [%d] wrote, for a non-negative integer. *)
Lemma py_int_str_of_Z (z : Z) :
  0 <= z -> PyNum.py_int (PyNum.str_of_Z z) = Some z.
Proof.
  intros Hz. rewrite py_int_digits by now apply str_of_Z_digits.
  unfold PyNum.str_of_Z. destruct (Z.ltb_spec z 0); [lia|].
  apply digits_value_some; [apply str_of_N_nonempty | | assumption].
  unfold PyNum.str_of_N. rewrite DecimalString.NilEmpty.usu. simpl.
  now rewrite DecimalN.Unsigned.of_to.
Qed.

(** Two digits are enough below one hundred. *)
Lemma length_fmt_02d (z : Z) :
  0 <= z < 100 -> String.length (PyNum.fmt_0d 2 z) = 2%nat.
Proof.
  intros Hz.
  assert (Hall : List.forallb
            (fun n => Nat.eqb (String.length (PyNum.fmt_0d 2 (Z.of_nat n))) 2)
            (seq 0 100) = true) by (vm_compute; reflexivity).
  rewrite List.forallb_forall in Hall.
  specialize (Hall (Z.to_nat z)).
  rewrite Z2Nat.id in Hall by lia.
  apply Nat.eqb_eq, Hall, in_seq. lia.
Qed.

(** ** Escaping and quoting *)

Section Encoding.

Variables pyfloat decimal : Type.
Variable rt : Runtime pyfloat decimal.

Abbreviation value := (pyval pyfloat decimal).

Lemma plain_str_absent (s : string) (c : ascii) :
  In c special_characters ->
  plain (TStr s) = true -> PyStr.contains c s = false.
Proof.
  intros Hin H. apply contains_false_iff. revert H. simpl.
  apply forallb_impl. intros x Hx.
  apply negb_true_iff. apply negb_true_iff in Hx.
  destruct (Ascii.eqb_spec x c) as [->|]; [|reflexivity].
  rewrite <- Hx. symmetry. unfold is_special. apply existsb_exists.
  exists c. split; [assumption | apply Ascii.eqb_refl].
Qed.

Lemma plain_unicode_absent (u : list N) (c : ascii) :
  In c special_characters ->
  plain (TUnicode u) = true -> PyUnicode.contains (N_of_ascii c) u = false.
Proof.
  intros Hin H. unfold plain in H. unfold PyUnicode.contains.
  induction u as [|x u IH]; [reflexivity|].
  cbn [List.forallb] in H. cbn [existsb].
  apply andb_true_iff in H as [Hx Hu]. rewrite (IH Hu), orb_false_r.
  apply negb_true_iff in Hx.
  destruct (N.eqb_spec (N_of_ascii c) x) as [E|]; [|reflexivity].
  rewrite <- Hx. symmetry. apply existsb_exists.
  exists c. split; [assumption | now apply N.eqb_eq].
Qed.

Lemma escape_str_plain (s : string) :
  plain (TStr s) = true -> escape_str s = s.
Proof.
  intros H. unfold escape_str.
  repeat rewrite replace_absent;
    solve [reflexivity | apply plain_str_absent; [simpl; tauto | assumption]].
Qed.

Lemma escape_unicode_plain (u : list N) :
  plain (TUnicode u) = true -> escape_unicode u = u.
Proof.
  intros H. unfold escape_unicode.
  repeat rewrite unicode_replace_absent;
    solve [reflexivity
          | apply plain_unicode_absent; [simpl; tauto | assumption]].
Qed.

(** C1: for a text (byte string or unicode) without any of the six
    special characters, [quote(escape(s))] is [s] between single quotes. *)
Theorem C1_quote_escape_plain (t : text) :
  plain t = true ->
  (v <- escape (text_obj t) ;; quote rt v)
  = Return (text_obj (single_quoted t) : value).
Proof.
  intros H. destruct t as [s|u]; simpl.
  - now rewrite escape_str_plain.
  - now rewrite escape_unicode_plain.
Qed.

(** ** Encoding *)

(** C2, as the code has it: [to_mysql] has no method for the class
    [HexLiteral] and raises its [TypeError]; it is [escape] that returns a
    [HexLiteral] unchanged, and [quote] that renders it as [0x] and its
    digits. *)
Theorem C2_hexliteral_unsupported_by_to_mysql
    (self : MySQLConverter) (h : HexLiteral) :
  to_mysql rt self (PHexLiteral h) = Raise (cannot_convert "hexliteral")
  /\ escape (PHexLiteral h : value) = Return (PHexLiteral h)
  /\ quote rt (PHexLiteral h) = Return (PStr ("0x" ++ hl_str h)).
Proof. repeat split. Qed.

(** C3, as the code has it: minus one second is [-00:00:01]; the
    duration with days -1, seconds 86399 and microseconds 500000 (minus
    half a second) is [-00:00:00.500000]; minus one second and a half,
    which is days -1, seconds 86398 and microseconds 500000, is
    [-00:00:01.500000]. *)
Theorem C3_negative_durations (self : MySQLConverter) :
  to_mysql rt self (PTimedelta (mk_timedelta (-1) 86399 0))
  = Return (PStr "-00:00:01")
  /\ to_mysql rt self (PTimedelta (mk_timedelta (-1) 86399 500000))
     = Return (PStr "-00:00:00.500000")
  /\ to_mysql rt self (PTimedelta (mk_timedelta (-1) 86398 500000))
     = Return (PStr "-00:00:01.500000").
Proof. repeat split. Qed.

(** The method that [to_mysql] finds for each class of value. *)
Lemma to_mysql_dispatch (self : MySQLConverter) (v : value) :
  to_mysql rt self v
  = try_except
      (match v with
       | PNone => _nonetype_to_mysql _ _ self v
       | PBool _ => _bool_to_mysql _ _ rt self v
       | PInt _ => _int_to_mysql _ _ rt self v
       | PLong _ => _long_to_mysql _ _ rt self v
       | PFloat _ => _float_to_mysql _ _ rt self v
       | PDecimal _ => _decimal_to_mysql _ _ rt self v
       | PStr _ => _str_to_mysql _ _ rt self v
       | PUnicode _ => _unicode_to_mysql rt self v
       | PDate _ => _date_to_mysql _ _ self v
       | PTime _ => _time_to_mysql _ _ rt self v
       | PDatetime _ => _datetime_to_mysql _ _ self v
       | PTimedelta _ => _timedelta_to_mysql _ _ self v
       | PStructTime _ => _struct_time_to_mysql _ _ rt self v
       | PHexLiteral _ | PSet _ => raise AttributeError "no such attribute"
       end)
      is_AttributeError
      (fun _ => Raise (cannot_convert (PyStr.lower (class_name v)))).
Proof. destruct v; reflexivity. Qed.

(** C9: a byte string is returned as it is, whatever the character set
    of the converter and whatever its bytes: nothing is encoded and no
    [HexLiteral] is made.  A unicode string, and only a unicode string,
    goes through the check and the wrapping: it is encoded with the
    character set of the converter; if the identifier of the character set
    is one of [slash_charsets] and the encoded bytes hold a backslash, the
    result is a [HexLiteral] of the string (its digits are those of the
    encoded bytes), else the encoded bytes; a failure of the codec is
    raised as it is, an [AttributeError] as [TypeError].  No value of
    another class is turned into a [HexLiteral]. *)
Theorem C9_str_passthrough (self : MySQLConverter) (v : value) :
  match v with
  | PStr s => to_mysql rt self v = Return (PStr s)
  | PUnicode u =>
      to_mysql rt self v
      = match codec_encode rt (charset self) u with
        | Return encoded =>
            if existsb (Z.eqb (charset_id self)) (slash_charsets rt)
               && PyStr.contains BACKSLASH encoded
            then Return
                   (PHexLiteral
                      (mk_HexLiteral
                         (PyStr.join (map PyNum.fmt_x (PyStr.ords encoded)))
                         (charset self) (TUnicode u)))
            else Return (PStr encoded)
        | Raise e =>
            if is_AttributeError (exn_kind e)
            then Raise (cannot_convert "unicode")
            else Raise e
        end
  | _ => forall h, to_mysql rt self v <> Return (PHexLiteral h)
  end.
Proof.
  destruct v; try reflexivity;
    try (intros h0; rewrite to_mysql_dispatch;
         unfold _bool_to_mysql, _date_to_mysql, _datetime_to_mysql,
           _time_to_mysql, _timedelta_to_mysql, _struct_time_to_mysql;
         cbn -[PyNum.fmt_0d PyNum.str_of_Z append Z.mul Z.add Z.div
               Z.modulo];
         repeat match goal with
           | |- context [if ?b then _ else _] =>
               destruct b;
               cbn -[PyNum.fmt_0d PyNum.str_of_Z append Z.mul Z.add Z.div
                     Z.modulo]
           | |- context [time_strftime ?r ?f ?st] =>
               destruct (time_strftime r f st);
               cbn -[PyNum.fmt_0d PyNum.str_of_Z append Z.mul Z.add Z.div
                     Z.modulo]
           end;
         discriminate).
  (* unicode *)
  rewrite to_mysql_dispatch. unfold _unicode_to_mysql, HexLiteral_new.
  cbn [bind text_encode].
  destruct (codec_encode rt (charset self) u) as [encoded|e] eqn:E;
    cbn [bind try_except].
  - destruct (existsb _ _ && _); cbn [bind try_except text_encode];
      try rewrite E; reflexivity.
  - reflexivity.
Qed.

End Encoding.

(** ** Decoding *)

Lemma contains_cons (sep c : ascii) (s : string) :
  PyStr.contains sep (String c s) = Ascii.eqb c sep || PyStr.contains sep s.
Proof.
  unfold PyStr.contains. simpl. rewrite negb_andb, negb_involutive. reflexivity.
Qed.

Lemma contains_append (sep : ascii) (a b : string) :
  PyStr.contains sep (a ++ b) = PyStr.contains sep a || PyStr.contains sep b.
Proof.
  unfold PyStr.contains. rewrite forallb_append. apply negb_andb.
Qed.

Lemma days_in_month_le (y m : Z) : Datetime.days_in_month y m <= 31.
Proof.
  unfold Datetime.days_in_month.
  repeat match goal with |- context [if ?b then _ else _] => destruct b end;
    lia.
Qed.

Lemma c_int_ok (z : Z) :
  -2147483648 <= z <= 2147483647 -> Datetime.c_int z = Return z.
Proof.
  intros H. unfold Datetime.c_int.
  destruct (Z.leb_spec (-2147483648) z); [|lia].
  destruct (Z.leb_spec z 2147483647); [reflexivity | lia].
Qed.

Lemma check_date_args_ok (y m d : Z) :
  1 <= y <= 9999 -> 1 <= m <= 12 -> 1 <= d <= Datetime.days_in_month y m ->
  Datetime.check_date_args y m d = Return tt.
Proof.
  intros Hy Hm Hd. unfold Datetime.check_date_args,
    Datetime.MINYEAR, Datetime.MAXYEAR.
  repeat match goal with
    | |- context [?a <=? ?b] => destruct (Z.leb_spec a b); [|lia]
    end.
  reflexivity.
Qed.

Lemma check_time_args_ok (h mi s us : Z) :
  0 <= h <= 23 -> 0 <= mi <= 59 -> 0 <= s <= 59 -> 0 <= us <= 999999 ->
  Datetime.check_time_args h mi s us = Return tt.
Proof.
  intros Hh Hm Hs Hu. unfold Datetime.check_time_args.
  repeat match goal with
    | |- context [?a <=? ?b] => destruct (Z.leb_spec a b); [|lia]
    end.
  reflexivity.
Qed.

Lemma date_new_ok (y m d : Z) :
  1 <= y <= 9999 -> 1 <= m <= 12 -> 1 <= d <= Datetime.days_in_month y m ->
  Datetime.date_new y m d = Return (mk_date y m d).
Proof.
  intros Hy Hm Hd. pose proof (days_in_month_le y m).
  unfold Datetime.date_new.
  rewrite !c_int_ok by lia. cbn [bind].
  now rewrite check_date_args_ok.
Qed.

Lemma datetime_new_ok (y m d h mi s us : Z) :
  1 <= y <= 9999 -> 1 <= m <= 12 -> 1 <= d <= Datetime.days_in_month y m ->
  0 <= h <= 23 -> 0 <= mi <= 59 -> 0 <= s <= 59 -> 0 <= us <= 999999 ->
  Datetime.datetime_new [y; m; d; h; mi; s; us]
  = Return (mk_datetime y m d h mi s us None).
Proof.
  intros Hy Hm Hd Hh Hmi Hs Hus. pose proof (days_in_month_le y m).
  unfold Datetime.datetime_new.
  cbn [List.length Z.of_nat Z.ltb Z.eqb Z.compare Pos.of_succ_nat Pos.succ
       Pos.compare Pos.compare_cont Pos.eqb firstn Datetime.c_ints].
  rewrite !c_int_ok by lia. cbn [bind nth].
  now rewrite check_date_args_ok, check_time_args_ok.
Qed.

Lemma timedelta_new_day (h mi s us : Z) :
  0 <= h <= 23 -> 0 <= mi <= 59 -> 0 <= s <= 59 -> 0 <= us <= 999999 ->
  Datetime.timedelta_new h mi s us
  = Return (mk_timedelta 0 (h * 3600 + mi * 60 + s) us).
Proof.
  intros Hh Hmi Hs Hus. unfold Datetime.timedelta_new.
  set (total := (h * 3600 + mi * 60 + s) * 1000000 + us).
  assert (Ht : 0 <= total < 86400000000) by (unfold total; lia).
  rewrite (Z.div_small total), (Z.mod_small total) by assumption.
  cbn [Z.ltb Z.compare orb].
  f_equal. f_equal; unfold total.
  - rewrite Z.div_add_l by lia. rewrite Z.div_small by lia. lia.
  - rewrite Z.add_comm, Z.mod_add by lia. apply Z.mod_small. lia.
Qed.

Lemma first_char_digit (s rest : string) :
  PyStr.forallb PyStr.is_digit s = true -> s <> EmptyString ->
  exists c r, s ++ rest = String c r /\ Ascii.eqb c "-" = false.
Proof.
  intros H Hne. destruct s as [|c s]; [congruence|].
  exists c, (s ++ rest). split; [reflexivity|].
  simpl in H. apply andb_true_iff in H as [Hc _].
  apply negb_true_iff. now apply is_digit_not_sep.
Qed.

Lemma fmt_0d_nonempty (z : Z) :
  0 <= z < 100 -> PyNum.fmt_0d 2 z <> EmptyString.
Proof.
  intros Hz E. apply (f_equal String.length) in E.
  rewrite length_fmt_02d in E by assumption. discriminate E.
Qed.

Lemma length_fmt_06d (z : Z) :
  0 <= z -> (6 <= String.length (PyNum.fmt_0d 6 z))%nat.
Proof.
  intros Hz. unfold PyNum.fmt_0d. destruct (Z.ltb_spec z 0); [lia|].
  rewrite length_rjust. lia.
Qed.

Lemma length_hms (h mi s : Z) :
  0 <= h < 100 -> 0 <= mi < 100 -> 0 <= s < 100 ->
  String.length
    (PyNum.fmt_0d 2 h ++ String ":" (PyNum.fmt_0d 2 mi
                                     ++ String ":" (PyNum.fmt_0d 2 s)))
  = 8%nat.
Proof.
  intros Hh Hmi Hs. rewrite length_append. cbn [String.length].
  rewrite length_append. cbn [String.length].
  now rewrite !length_fmt_02d.
Qed.

Lemma digit_start_not_NUL (s rest : string) :
  PyStr.forallb PyStr.is_digit s = true -> s <> EmptyString ->
  String.eqb (s ++ rest) NUL = false.
Proof.
  intros H Hne. destruct s as [|c s]; [congruence|].
  simpl in H. apply andb_true_iff in H as [Hc _].
  simpl. replace (Ascii.eqb c "000") with false; [reflexivity|].
  symmetry. apply negb_true_iff. now apply is_digit_not_sep.
Qed.

Lemma str_of_Z_nonempty (z : Z) : 0 <= z -> PyNum.str_of_Z z <> EmptyString.
Proof.
  intros Hz. unfold PyNum.str_of_Z. destruct (Z.ltb_spec z 0); [lia|].
  apply str_of_N_nonempty.
Qed.

Section Decoding.

Variables pyfloat decimal : Type.
Variable rt : Runtime pyfloat decimal.

Abbreviation value := (pyval pyfloat decimal).

Lemma ensure_cache_filled (self : MySQLConverter) :
  cache_ok rt self ->
  _cache_field_types (ensure_cache rt self) = fill_cache (FieldType_desc rt) [].
Proof.
  unfold ensure_cache. intros [H|H]; rewrite H.
  - reflexivity.
  - destruct (fill_cache (FieldType_desc rt) []) eqn:E; [reflexivity|].
    simpl. congruence.
Qed.

Lemma ensure_cache_config (self : MySQLConverter) :
  charset (ensure_cache rt self) = charset self
  /\ use_unicode (ensure_cache rt self) = use_unicode self.
Proof.
  unfold ensure_cache. now destruct (Dict.is_empty _).
Qed.

Lemma call_decoder_config (m : py_decoder) (s1 s2 : MySQLConverter)
    (v : string) (dsc : flddsc) :
  charset s1 = charset s2 -> use_unicode s1 = use_unicode s2 ->
  call_decoder rt m s1 v dsc = call_decoder rt m s2 v dsc.
Proof.
  intros Hc Hu. destruct m; try reflexivity; simpl;
    unfold _BLOB_to_python, _STRING_to_python; now rewrite Hc, Hu.
Qed.

(** A new converter has an empty cache. *)
Lemma init_cache_ok (cs : option string) (uu : bool) (self : MySQLConverter) :
  MySQLConverter_init pyfloat decimal rt cs uu = Return self ->
  cache_ok rt self.
Proof.
  unfold MySQLConverter_init, set_charset. cbn [bind].
  destruct (get_charset_id rt _); cbn [bind]; [|discriminate].
  intros [= <-]. now left.
Qed.

(** What [to_python] does with a value that is present and is not taken
    as the NULL marker. *)
Lemma to_python_calls (self : MySQLConverter) (dsc : flddsc) (v : string)
    (m : py_decoder) :
  cache_ok rt self ->
  String.eqb v NUL && negb (fd_type dsc =? FieldType_BIT rt) = false ->
  decoder_of rt (fd_type dsc) = Some m ->
  fst (to_python rt self dsc (Some v))
  = resignal dsc v (call_decoder rt m self v dsc).
Proof.
  intros Hok Hnul Hm. unfold to_python. rewrite Hnul. simpl.
  rewrite (ensure_cache_filled _ Hok). unfold decoder_of in Hm. rewrite Hm.
  f_equal. destruct (ensure_cache_config self) as [Hc Hu].
  now apply call_decoder_config.
Qed.

(** The cache stays in one of its two states. *)
Lemma to_python_cache_ok (self : MySQLConverter) (dsc : flddsc)
    (v : option string) :
  cache_ok rt self -> cache_ok rt (snd (to_python rt self dsc v)).
Proof.
  intros Hok. unfold to_python. destruct v as [v|]; [|assumption].
  destruct (_ && _); [assumption|]. simpl. right.
  now apply ensure_cache_filled.
Qed.

Lemma int_fmt_0d (w : nat) (z : Z) :
  0 <= z -> int_ rt (PyNum.fmt_0d w z) = Return z.
Proof. intros H. unfold int_. now rewrite py_int_fmt_0d. Qed.

Lemma int_str_of_Z (z : Z) :
  0 <= z -> int_ rt (PyNum.str_of_Z z) = Return z.
Proof. intros H. unfold int_. now rewrite py_int_str_of_Z. Qed.

Ltac digits_side :=
  first [ reflexivity
        | apply fmt_0d_digits; lia
        | apply str_of_Z_digits; lia ].

Ltac no_sep :=
  repeat (rewrite contains_append || rewrite contains_cons);
  rewrite ?digits_no_sep by digits_side;
  reflexivity.

Lemma DATE_of_text (self : MySQLConverter) (dsc : flddsc) (y m d : Z) :
  1 <= y <= 9999 -> 1 <= m <= 12 -> 1 <= d <= Datetime.days_in_month y m ->
  _DATE_to_python rt self
    (PyNum.str_of_Z y ++ "-" ++ PyNum.fmt_0d 2 m ++ "-" ++ PyNum.fmt_0d 2 d)
    dsc
  = Return (PDate (mk_date y m d)).
Proof.
  intros Hy Hm Hd. pose proof (days_in_month_le y m).
  unfold _DATE_to_python.
  change (PyNum.str_of_Z y ++ "-" ++ PyNum.fmt_0d 2 m ++ "-"
          ++ PyNum.fmt_0d 2 d)
    with (PyNum.str_of_Z y
          ++ String "-" (PyNum.fmt_0d 2 m ++ String "-" (PyNum.fmt_0d 2 d))).
  rewrite !split_first, split_whole by no_sep.
  cbn [getitem nth_error bind].
  rewrite int_str_of_Z by lia. cbn [bind].
  rewrite int_fmt_0d by lia. cbn [bind].
  rewrite int_fmt_0d by lia. cbn [bind].
  rewrite date_new_ok by assumption. reflexivity.
Qed.

Lemma TIME_of_text (self : MySQLConverter) (dsc : flddsc) (h mi s : Z) :
  0 <= h <= 23 -> 0 <= mi <= 59 -> 0 <= s <= 59 ->
  _TIME_to_python rt self
    (PyNum.fmt_0d 2 h ++ String ":" (PyNum.fmt_0d 2 mi
                                     ++ String ":" (PyNum.fmt_0d 2 s)))
    dsc
  = Return (PTimedelta (mk_timedelta 0 (h * 3600 + mi * 60 + s) 0)).
Proof.
  intros Hh Hmi Hs. unfold _TIME_to_python.
  rewrite split_whole by no_sep.
  cbn [unpack2 raise try_except exn_kind is_ValueError bind].
  rewrite !split_first, split_whole by no_sep.
  cbn [ints]. rewrite !int_fmt_0d by lia.
  cbn [bind unpack3].
  destruct (first_char_digit (PyNum.fmt_0d 2 h)
              (String ":" (PyNum.fmt_0d 2 mi ++ String ":" (PyNum.fmt_0d 2 s))))
    as (c & r & E & Hc);
    [apply fmt_0d_digits; lia | apply fmt_0d_nonempty; lia |].
  rewrite E. cbn [bind]. rewrite Hc.
  rewrite timedelta_new_day by lia. reflexivity.
Qed.

Lemma TIME_of_text_us (self : MySQLConverter) (dsc : flddsc)
    (h mi s us : Z) :
  0 <= h <= 23 -> 0 <= mi <= 59 -> 0 <= s <= 59 -> 0 <= us <= 999999 ->
  _TIME_to_python rt self
    (PyNum.fmt_0d 2 h
     ++ String ":" (PyNum.fmt_0d 2 mi
                    ++ String ":" (PyNum.fmt_0d 2 s
                                   ++ String "." (PyNum.fmt_0d 6 us))))
    dsc
  = Return (PTimedelta (mk_timedelta 0 (h * 3600 + mi * 60 + s) us)).
Proof.
  intros Hh Hmi Hs Hus. unfold _TIME_to_python.
  replace (PyNum.fmt_0d 2 h
           ++ String ":" (PyNum.fmt_0d 2 mi
                          ++ String ":" (PyNum.fmt_0d 2 s
                                         ++ String "." (PyNum.fmt_0d 6 us))))
    with ((PyNum.fmt_0d 2 h
           ++ String ":" (PyNum.fmt_0d 2 mi ++ String ":" (PyNum.fmt_0d 2 s)))
          ++ String "." (PyNum.fmt_0d 6 us))
    by (rewrite !append_assoc; cbn [append]; rewrite !append_assoc;
        reflexivity).
  rewrite split_first, split_whole by no_sep.
  cbn [unpack2 bind snd fst].
  rewrite ljust_long by (apply length_fmt_06d; lia).
  rewrite int_fmt_0d by lia.
  cbn [bind try_except].
  rewrite !split_first, split_whole by no_sep.
  cbn [ints]. rewrite !int_fmt_0d by lia.
  cbn [bind unpack3].
  rewrite append_assoc.
  destruct (first_char_digit (PyNum.fmt_0d 2 h)
              (String ":" (PyNum.fmt_0d 2 mi ++ String ":" (PyNum.fmt_0d 2 s))
               ++ String "." (PyNum.fmt_0d 6 us)))
    as (c & r & E & Hc);
    [apply fmt_0d_digits; lia | apply fmt_0d_nonempty; lia |].
  rewrite E. cbn [bind]. rewrite Hc.
  rewrite timedelta_new_day by lia. reflexivity.
Qed.

Lemma DATETIME_of_text (self : MySQLConverter) (dsc : flddsc)
    (y m d h mi s : Z) :
  1 <= y <= 9999 -> 1 <= m <= 12 -> 1 <= d <= Datetime.days_in_month y m ->
  0 <= h <= 23 -> 0 <= mi <= 59 -> 0 <= s <= 59 ->
  _DATETIME_to_python rt self
    ((PyNum.str_of_Z y
      ++ String "-" (PyNum.fmt_0d 2 m ++ String "-" (PyNum.fmt_0d 2 d)))
     ++ String " "
          (PyNum.fmt_0d 2 h
           ++ String ":" (PyNum.fmt_0d 2 mi ++ String ":" (PyNum.fmt_0d 2 s))))
    dsc
  = Return (PDatetime (mk_datetime y m d h mi s 0 None)).
Proof.
  intros Hy Hm Hd Hh Hmi Hs. pose proof (days_in_month_le y m).
  unfold _DATETIME_to_python.
  rewrite split_first, split_whole by no_sep.
  cbn [unpack2 bind].
  rewrite length_hms by lia. cbn [Nat.ltb Nat.leb bind].
  rewrite !split_first, !split_whole by no_sep.
  cbn [ints].
  rewrite int_str_of_Z by lia. rewrite !int_fmt_0d by lia.
  cbn [bind List.app].
  rewrite datetime_new_ok by lia. reflexivity.
Qed.

Lemma DATETIME_of_text_us (self : MySQLConverter) (dsc : flddsc)
    (y m d h mi s us : Z) :
  1 <= y <= 9999 -> 1 <= m <= 12 -> 1 <= d <= Datetime.days_in_month y m ->
  0 <= h <= 23 -> 0 <= mi <= 59 -> 0 <= s <= 59 -> 0 <= us <= 999999 ->
  _DATETIME_to_python rt self
    ((PyNum.str_of_Z y
      ++ String "-" (PyNum.fmt_0d 2 m ++ String "-" (PyNum.fmt_0d 2 d)))
     ++ String " "
          ((PyNum.fmt_0d 2 h
            ++ String ":" (PyNum.fmt_0d 2 mi
                           ++ String ":" (PyNum.fmt_0d 2 s)))
           ++ String "." (PyNum.fmt_0d 6 us)))
    dsc
  = Return (PDatetime (mk_datetime y m d h mi s us None)).
Proof.
  intros Hy Hm Hd Hh Hmi Hs Hus. pose proof (days_in_month_le y m).
  unfold _DATETIME_to_python.
  rewrite split_first, split_whole by no_sep.
  cbn [unpack2 bind].
  rewrite length_append, length_hms by lia.
  cbn [String.length Nat.add Nat.ltb Nat.leb].
  rewrite split_first, split_whole by no_sep.
  cbn [unpack2 bind snd fst].
  rewrite ljust_long by (apply length_fmt_06d; lia).
  rewrite int_fmt_0d by lia. cbn [bind].
  rewrite !split_first, !split_whole by no_sep.
  cbn [ints].
  rewrite int_str_of_Z by lia. rewrite !int_fmt_0d by lia.
  cbn [bind List.app].
  rewrite datetime_new_ok by lia. reflexivity.
Qed.

Ltac right_nested :=
  repeat first [rewrite append_assoc | progress (cbn [append])].

(** C5, as the code has it: every in-range date, time of day or
    date-time, naive or aware, is encoded by [to_mysql] to a text that
    [to_python] decodes, for the column type of its kind, to
    [decoded_form v]: the date itself, the naive date-time of the same
    fields (the time zone is not encoded), the duration since midnight for
    a time of day.  The decoded value equals the encoded one exactly for
    dates and naive date-times. *)
Theorem C5_roundtrip_date_time_datetime
    (self : MySQLConverter) (dsc : flddsc) (v : value) :
  cache_ok rt self ->
  in_range v ->
  decoder_of rt (fd_type dsc) = field_decoder_for v ->
  exists s,
    to_mysql rt self v = Return (PStr s)
    /\ fst (to_python rt self dsc (Some s)) = Return (decoded_form v)
    /\ (decoded_form v = v <-> decoded_as_itself v).
Proof.
  intros Hok Hin Hdec.
  assert (Hfix : decoded_form v = v <-> decoded_as_itself v).
  { destruct v; simpl in Hin; try contradiction.
    - simpl. tauto.
    - simpl. split; [discriminate | contradiction].
    - destruct dt as [y m d h mi s us tz]. unfold naive. simpl.
      split; intros H; [injection H; congruence | subst tz; reflexivity]. }
  destruct v; simpl in Hin; try contradiction; simpl in Hdec.
  - (* date *)
    destruct d as [y m d]; simpl in Hin.
    unfold Datetime.MINYEAR, Datetime.MAXYEAR in Hin.
    destruct Hin as (Hy & Hm & Hd).
    rewrite to_mysql_dispatch. unfold _date_to_mysql.
    cbn [attr_year attr_month attr_day bind d_year d_month d_day
         try_except].
    eexists. split; [reflexivity|]. split; [|exact Hfix].
    rewrite (to_python_calls self dsc _ DATE_to_python Hok);
      [| rewrite digit_start_not_NUL;
         [reflexivity | apply str_of_Z_digits; lia
         | apply str_of_Z_nonempty; lia]
       | assumption].
    cbn [call_decoder d_year d_month d_day].
    rewrite DATE_of_text by assumption. reflexivity.
  - (* time of day *)
    destruct t as [h mi s us tz]; simpl in Hin.
    destruct Hin as (Hh & Hmi & Hs & Hus).
    rewrite to_mysql_dispatch.
    unfold _time_to_mysql.
    cbn [attr_microsecond bind t_microsecond strftime_HMS t_hour t_minute
         t_second].
    destruct (Z.eqb_spec us 0) as [->|Hnz];
      cbn [negb bind try_except]; eexists; (split; [reflexivity|]); (split; [|exact Hfix]).
    + right_nested. rewrite append_empty_r.
      rewrite (to_python_calls self dsc _ TIME_to_python Hok);
        [| rewrite digit_start_not_NUL;
           [reflexivity | apply fmt_0d_digits; lia
           | apply fmt_0d_nonempty; lia]
         | assumption].
      cbn [call_decoder]. rewrite TIME_of_text by lia. reflexivity.
    + right_nested.
      rewrite (to_python_calls self dsc _ TIME_to_python Hok);
        [| rewrite digit_start_not_NUL;
           [reflexivity | apply fmt_0d_digits; lia
           | apply fmt_0d_nonempty; lia]
         | assumption].
      cbn [call_decoder]. rewrite TIME_of_text_us by lia. reflexivity.
  - (* date-time *)
    destruct dt as [y m d h mi s us tz]; simpl in Hin.
    unfold Datetime.MINYEAR, Datetime.MAXYEAR in Hin.
    destruct Hin as ((Hy & Hm & Hd) & Hh & Hmi & Hs & Hus).
    rewrite to_mysql_dispatch.
    unfold _datetime_to_mysql.
    cbn [attr_microsecond attr_year attr_month attr_day attr_hour attr_minute
         attr_second bind dt_year dt_month dt_day dt_hour dt_minute dt_second
         dt_microsecond].
    destruct (Z.eqb_spec us 0) as [->|Hnz];
      cbn [negb bind try_except]; eexists; (split; [reflexivity|]); (split; [|exact Hfix]).
    + right_nested.
      rewrite (to_python_calls self dsc _ DATETIME_to_python Hok);
        [| rewrite digit_start_not_NUL;
           [reflexivity | apply str_of_Z_digits; lia
           | apply str_of_Z_nonempty; lia]
         | assumption].
      cbn [call_decoder].
      match goal with
      | |- context [_DATETIME_to_python rt self ?text dsc] =>
          replace text
            with ((PyNum.str_of_Z y
                   ++ String "-" (PyNum.fmt_0d 2 m
                                  ++ String "-" (PyNum.fmt_0d 2 d)))
                  ++ String " "
                       (PyNum.fmt_0d 2 h
                        ++ String ":" (PyNum.fmt_0d 2 mi
                                       ++ String ":" (PyNum.fmt_0d 2 s))))
            by (right_nested; reflexivity)
      end.
      rewrite DATETIME_of_text by lia. reflexivity.
    + right_nested.
      rewrite (to_python_calls self dsc _ DATETIME_to_python Hok);
        [| rewrite digit_start_not_NUL;
           [reflexivity | apply str_of_Z_digits; lia
           | apply str_of_Z_nonempty; lia]
         | assumption].
      cbn [call_decoder].
      match goal with
      | |- context [_DATETIME_to_python rt self ?text dsc] =>
          replace text
            with ((PyNum.str_of_Z y
                   ++ String "-" (PyNum.fmt_0d 2 m
                                  ++ String "-" (PyNum.fmt_0d 2 d)))
                  ++ String " "
                       ((PyNum.fmt_0d 2 h
                         ++ String ":" (PyNum.fmt_0d 2 mi
                                        ++ String ":" (PyNum.fmt_0d 2 s)))
                        ++ String "." (PyNum.fmt_0d 6 us)))
            by (right_nested; reflexivity)
      end.
      rewrite DATETIME_of_text_us by lia. reflexivity.
Qed.

Lemma not_NUL (v : string) (type_code : Z) :
  v <> NUL ->
  String.eqb v NUL && negb (type_code =? FieldType_BIT rt) = false.
Proof. intros H. apply String.eqb_neq in H. now rewrite H. Qed.

(** C6, at the input where the code departs from it: a DATE text with a
    single part raises [IndexError] out of [to_python], where a DATETIME
    column gives null for the same text; a DATETIME text with a fourth
    date part raises [TypeError]. *)
Theorem C6_DATE_too_few_parts_raises
    (self : MySQLConverter) (dsc dsc' : flddsc) :
  cache_ok rt self ->
  decoder_of rt (fd_type dsc) = Some DATE_to_python ->
  decoder_of rt (fd_type dsc') = Some DATETIME_to_python ->
  fst (to_python rt self dsc (Some "2014"))
  = raise IndexError "list index out of range"
  /\ fst (to_python rt self dsc' (Some "2014")) = Return PNone
  /\ fst (to_python rt self dsc' (Some "1-1-1-1 1:1:1"))
     = raise TypeError
         ("tzinfo argument must be None or of a tzinfo subclass, not type 'int'"
          ++ " (field " ++ fd_name dsc' ++ ")").
Proof.
  intros Hok Hd Hdt. repeat split.
  - now rewrite (to_python_calls self dsc _ DATE_to_python Hok).
  - now rewrite (to_python_calls self dsc' _ DATETIME_to_python Hok).
  - now rewrite (to_python_calls self dsc' _ DATETIME_to_python Hok).
Qed.







(** C8: an absent value is null; the single byte 0x00 is null for every
    column that is not of type BIT; for a BIT column it goes to
    [_BIT_to_python], which reads it as the integer zero. *)
Theorem C8_null_marker (self : MySQLConverter) (dsc : flddsc) :
  fst (to_python rt self dsc None) = Return PNone
  /\ (fd_type dsc <> FieldType_BIT rt ->
      fst (to_python rt self dsc (Some NUL)) = Return PNone)
  /\ (fd_type dsc = FieldType_BIT rt ->
      cache_ok rt self ->
      decoder_of rt (FieldType_BIT rt) = Some BIT_to_python ->
      fst (to_python rt self dsc (Some NUL)) = _BIT_to_python rt self NUL dsc
      /\ _BIT_to_python rt self NUL dsc = Return (int_obj rt 0)
      /\ int_obj rt 0 <> PNone).
Proof.
  split; [reflexivity|]. split.
  - intros Hty. unfold to_python.
    apply Z.eqb_neq in Hty. now rewrite Hty.
  - intros Hty Hok Hdec. repeat split.
    + rewrite (to_python_calls self dsc NUL BIT_to_python Hok).
      * reflexivity.
      * rewrite Hty, Z.eqb_refl. apply andb_false_r.
      * now rewrite Hty.
    + unfold int_obj. now destruct (_ && _).
Qed.

(** C10: for a STRING, VAR_STRING or BLOB column whose SET and BINARY
    flags are clear, the text handed to the method of the column is
    decoded with the character set of the converter when [use_unicode] is
    set (an error of the codec goes through the [except] clauses of
    [to_python]), and is returned as it is when [use_unicode] is not. *)
Theorem C10_string_use_unicode
    (self : MySQLConverter) (dsc : flddsc) (v : string) (m : py_decoder) :
  cache_ok rt self ->
  v <> NUL ->
  decoder_of rt (fd_type dsc) = Some m ->
  m = STRING_to_python \/ m = BLOB_to_python ->
  Z.land (fd_flags dsc) (FieldFlag_SET rt) = 0 ->
  Z.land (fd_flags dsc) (FieldFlag_BINARY rt) = 0 ->
  fst (to_python rt self dsc (Some v))
  = if use_unicode self
    then resignal dsc v
           (u <- codec_decode rt (charset self) v ;; Return (PUnicode u))
    else Return (PStr v).
Proof.
  intros Hok Hnul Hdec Hm Hset Hbin.
  rewrite (to_python_calls self dsc v m Hok);
    [| now apply not_NUL | assumption].
  destruct Hm as [-> | ->]; cbn [call_decoder];
    unfold _BLOB_to_python, _STRING_to_python;
    rewrite ?Hset, ?Hbin; cbn [Z.eqb negb];
    now destruct (use_unicode self).
Qed.

End Decoding.

(** ** Evaluation on sample values *)

Lemma C1_plain_text_witness :
  plain (TStr "plain text") = true
  /\ (v <- escape (PStr "plain text") ;; quote Latin1.runtime v)
     = Return (PStr "'plain text'" : pyobj).
Proof.
  split; [reflexivity|].
  exact (C1_quote_escape_plain string string Latin1.runtime
           (TStr "plain text") eq_refl).
Defined.

(** C2 fails on the code: [to_mysql] on the [HexLiteral] of a backslash
    does not return it. *)
Lemma C2_hexliteral_counterexample :
  HexLiteral_new Latin1.runtime (TUnicode [92%N]) "latin1"
  = Return Sample.backslash_literal
  /\ to_mysql Latin1.runtime (Latin1.converter true)
       (PHexLiteral Sample.backslash_literal)
     <> Return (PHexLiteral Sample.backslash_literal).
Proof. split; [reflexivity | discriminate]. Qed.

(** C3 fails on the code: the duration with days -1, seconds 86399 and
    microseconds 500000 is not encoded as [-23:59:59.500000]. *)
Lemma C3_duration_counterexample :
  to_mysql Latin1.runtime (Latin1.converter true)
    (PTimedelta Sample.minus_half_second)
  <> Return (PStr "-23:59:59.500000").
Proof. vm_compute. discriminate. Qed.

(** C4 on the code: a byte below 16 gives a single digit, so that the
    digits of [u'a\n'] are [61a] and not the hexadecimal encoding [610a]
    of its bytes; the text of a [HexLiteral] is [0x] and its digits. *)
Theorem C4_hexliteral_digits_unpadded :
  HexLiteral_new Latin1.runtime (TUnicode Sample.letter_newline) "latin1"
  = Return (mk_HexLiteral "61a" "latin1" (TUnicode Sample.letter_newline))
  /\ hexlify (PyStr.chrs Sample.letter_newline) = "610a"
  /\ (forall h : HexLiteral, HexLiteral_str h = "0x" ++ hl_str h).
Proof. repeat split. Qed.

(** C5 fails on the code: midnight, encoded and decoded as a TIME column,
    comes back as a duration, not as a time of day. *)
Lemma C5_time_of_day_counterexample :
  in_range (PTime Sample.midnight : pyobj)
  /\ to_mysql Latin1.runtime (Latin1.converter true) (PTime Sample.midnight)
     = Return (PStr "00:00:00")
  /\ fst (to_python Latin1.runtime (Latin1.converter true) Sample.TIME_field
            (Some "00:00:00"))
     <> Return (PTime Sample.midnight).
Proof.
  split; [cbv; intuition discriminate|].
  split; [reflexivity|]. vm_compute. discriminate.
Qed.

(** An aware date-time comes back without its zone. *)
Lemma C5_datetime_witness :
  exists s,
    to_mysql Latin1.runtime (Latin1.converter true)
      (PDatetime Sample.an_aware_datetime)
    = Return (PStr s)
    /\ fst (to_python Latin1.runtime (Latin1.converter true)
              Sample.DATETIME_field (Some s))
       = Return (PDatetime Sample.a_datetime)
    /\ ((PDatetime Sample.a_datetime : pyobj)
          = PDatetime Sample.an_aware_datetime
        <-> Some Sample.CET = None).
Proof.
  apply (C5_roundtrip_date_time_datetime string string Latin1.runtime
           (Latin1.converter true) Sample.DATETIME_field
           (PDatetime Sample.an_aware_datetime)).
  - left. reflexivity.
  - cbv. intuition discriminate.
  - reflexivity.
Defined.

Lemma C6_DATE_witness :
  fst (to_python Latin1.runtime (Latin1.converter true) Sample.DATE_field
         (Some "2014"))
  = (raise IndexError "list index out of range" : result pyobj).
Proof.
  apply (C6_DATE_too_few_parts_raises string string Latin1.runtime
           (Latin1.converter true) Sample.DATE_field Sample.DATETIME_field).
  - left. reflexivity.
  - reflexivity.
  - reflexivity.
Defined.



Lemma C8_null_marker_witness :
  fst (to_python Latin1.runtime (Latin1.converter true) Sample.YEAR_field
         (Some NUL))
  = (Return PNone : result pyobj)
  /\ fst (to_python Latin1.runtime (Latin1.converter true) Sample.BIT_field
            (Some NUL))
     = (Return (PInt 0) : result pyobj).
Proof.
  split.
  - apply (C8_null_marker string string Latin1.runtime
             (Latin1.converter true) Sample.YEAR_field).
    discriminate.
  - destruct (C8_null_marker string string Latin1.runtime
                (Latin1.converter true) Sample.BIT_field)
      as (_ & _ & Hbit).
    destruct Hbit as (Hcall & Hzero & _).
    + reflexivity.
    + left. reflexivity.
    + reflexivity.
    + rewrite Hcall. exact Hzero.
Defined.

Lemma C10_raw_text_witness :
  fst (to_python Latin1.runtime (Latin1.converter false) Sample.STRING_field
         (Some "abc"))
  = (Return (PStr "abc") : result pyobj).
Proof.
  apply (C10_string_use_unicode string string Latin1.runtime
           (Latin1.converter false) Sample.STRING_field "abc"
           STRING_to_python).
  - left. reflexivity.
  - discriminate.
  - reflexivity.
  - left. reflexivity.
  - reflexivity.
  - reflexivity.
Defined.

(** * Further properties *)

(** ** Escaping, continued *)

Ltac each_character c :=
  destruct c as [[|] [|] [|] [|] [|] [|] [|] [|]].

Lemma replace_append (old : ascii) (new a b : string) :
  PyStr.replace old new (a ++ b)
  = PyStr.replace old new a ++ PyStr.replace old new b.
Proof.
  induction a as [|c a IH]; simpl; [reflexivity|].
  destruct (Ascii.eqb c old); rewrite IH; [|reflexivity].
  now rewrite append_assoc.
Qed.

Lemma escape_str_append (a b : string) :
  escape_str (a ++ b) = escape_str a ++ escape_str b.
Proof. unfold escape_str. now rewrite !replace_append. Qed.

Lemma escape_str_single (c : ascii) : escape_str (str1 c) = escape_char c.
Proof. each_character c; reflexivity. Qed.

Lemma escape_str_pass (s : string) : escape_str s = escape_pass s.
Proof.
  induction s as [|c s IH]; [reflexivity|].
  change (String c s) with (str1 c ++ s).
  rewrite escape_str_append, escape_str_single, IH. reflexivity.
Qed.

(** The six replacements of [escape], made one after the other on the
    whole text, give what one pass over the text gives: every special
    character is rewritten once, and the backslashes that the later
    replacements write are not escaped again. *)
Theorem escape_is_one_pass (pyfloat decimal : Type) (s : string) :
  escape (PStr s : pyval pyfloat decimal) = Return (PStr (escape_pass s)).
Proof. cbn [escape]. now rewrite escape_str_pass. Qed.

Lemma unescape_escape_char (c : ascii) (t : string) :
  unescape (escape_char c ++ t) = String c (unescape t).
Proof. each_character c; reflexivity. Qed.

Lemma well_escaped_escape_char (c : ascii) (t : string) :
  well_escaped (escape_char c ++ t) = well_escaped t.
Proof. each_character c; reflexivity. Qed.

Lemma length_escape_char (c : ascii) :
  String.length (escape_char c)
  = ((if is_special c then 1 else 0) + 1)%nat.
Proof. each_character c; reflexivity. Qed.

(** Reading the escape sequences of an escaped text back gives the
    text. *)
Theorem escape_read_back (s : string) : unescape (escape_str s) = s.
Proof.
  rewrite escape_str_pass.
  induction s as [|c s IH]; [reflexivity|].
  cbn [escape_pass]. now rewrite unescape_escape_char, IH.
Qed.

(** Two byte strings with the same escaped form are the same string. *)
Theorem escape_injective (pyfloat decimal : Type) (s1 s2 : string) :
  escape (PStr s1 : pyval pyfloat decimal) = escape (PStr s2) -> s1 = s2.
Proof.
  cbn [escape]. intros [= H].
  assert (Hback : forall s, unescape (escape_str s) = s).
  { intros s. rewrite escape_str_pass.
    induction s as [|c s IH]; [reflexivity|].
    cbn [escape_pass]. now rewrite unescape_escape_char, IH. }
  rewrite <- (Hback s1), <- (Hback s2). now rewrite H.
Qed.

(** In an escaped text no special character stands bare. *)
Theorem escape_well_escaped (s : string) :
  well_escaped (escape_str s) = true.
Proof.
  rewrite escape_str_pass.
  induction s as [|c s IH]; [reflexivity|].
  cbn [escape_pass]. now rewrite well_escaped_escape_char.
Qed.

(** Escaping lengthens a text by one character for each of its special
    characters. *)
Theorem escape_length (s : string) :
  String.length (escape_str s) = (String.length s + count_special s)%nat.
Proof.
  rewrite escape_str_pass.
  induction s as [|c s IH]; [reflexivity|].
  cbn [escape_pass count_special String.length].
  rewrite length_append, length_escape_char, IH. lia.
Qed.

(** ** The encoding pipeline *)

Lemma is_temporal_not_special (c : ascii) :
  is_temporal c = true -> negb (is_special c) = true.
Proof.
  destruct c as [[|] [|] [|] [|] [|] [|] [|] [|]];
    solve [reflexivity | discriminate].
Qed.

Lemma forallb_cons (p : ascii -> bool) (c : ascii) (s : string) :
  PyStr.forallb p (String c s) = p c && PyStr.forallb p s.
Proof. reflexivity. Qed.

Lemma digits_temporal (s : string) :
  PyStr.forallb PyStr.is_digit s = true ->
  PyStr.forallb is_temporal s = true.
Proof.
  apply forallb_impl. intros c H. unfold is_temporal. now rewrite H.
Qed.

Lemma fmt_0d_temporal (w : nat) (z : Z) :
  PyStr.forallb is_temporal (PyNum.fmt_0d w z) = true.
Proof.
  unfold PyNum.fmt_0d. destruct (z <? 0).
  - rewrite forallb_cons. apply digits_temporal, rjust_digits.
  - apply digits_temporal, rjust_digits.
Qed.

Lemma str_of_Z_temporal (z : Z) :
  PyStr.forallb is_temporal (PyNum.str_of_Z z) = true.
Proof.
  unfold PyNum.str_of_Z. destruct (z <? 0).
  - rewrite forallb_cons. apply digits_temporal, str_of_N_digits.
  - apply digits_temporal, str_of_N_digits.
Qed.

Ltac temporal_text :=
  repeat first
    [ rewrite forallb_append
    | rewrite forallb_cons
    | rewrite fmt_0d_temporal
    | rewrite str_of_Z_temporal ];
  reflexivity.

Section Pipeline.

Variables pyfloat decimal : Type.
Variable rt : Runtime pyfloat decimal.

Abbreviation value := (pyval pyfloat decimal).

Lemma temporal_text_of (self : MySQLConverter) (v : value) :
  is_temporal_value v = true ->
  exists s, to_mysql rt self v = Return (PStr s)
            /\ PyStr.forallb is_temporal s = true.
Proof.
  intros Hv. rewrite to_mysql_dispatch.
  destruct v; try discriminate Hv.
  - destruct d as [y m d]. eexists. split; [reflexivity|]. temporal_text.
  - destruct t as [h mi s us tz].
    unfold _time_to_mysql.
    cbn [attr_microsecond bind t_microsecond strftime_HMS t_hour t_minute
         t_second].
    destruct (negb (us =? 0)); cbn [bind try_except];
      eexists; (split; [reflexivity|]); temporal_text.
  - destruct dt as [y m d h mi s us tz].
    unfold _datetime_to_mysql.
    cbn [attr_microsecond attr_year attr_month attr_day attr_hour attr_minute
         attr_second bind dt_year dt_month dt_day dt_hour dt_minute dt_second
         dt_microsecond].
    destruct (negb (us =? 0)); cbn [bind try_except];
      eexists; (split; [reflexivity|]); temporal_text.
  - destruct td as [days secs us].
    unfold _timedelta_to_mysql.
    cbn [attr_days attr_seconds attr_microseconds bind td_days td_seconds
         td_microseconds].
    destruct (negb (us =? 0)); destruct (days <? 0); cbn [bind try_except];
      eexists; (split; [reflexivity|]); temporal_text.
Qed.

(** The text of a date, a time of day, a date-time or a duration, of any
    field values, has no special character: [to_mysql] never fails on
    these values, [escape] leaves their text as it is and [quote] puts it
    between single quotes. *)
Theorem temporal_values_need_no_escaping (self : MySQLConverter) (v : value) :
  is_temporal_value v = true ->
  exists s,
    to_mysql rt self v = Return (PStr s)
    /\ escape (PStr s : value) = Return (PStr s)
    /\ quote rt (PStr s) = Return (PStr ("'" ++ s ++ "'")).
Proof.
  intros Hv. destruct (temporal_text_of self v Hv) as (s & Hs & Ht).
  exists s. split; [assumption|]. split; [|reflexivity].
  cbn [escape]. rewrite escape_str_plain; [reflexivity|].
  cbn [plain]. revert Ht. apply forallb_impl, is_temporal_not_special.
Qed.

End Pipeline.

Section Encoded.

Variables pyfloat decimal : Type.
Variable rt : Runtime pyfloat decimal.

Abbreviation value := (pyval pyfloat decimal).

Lemma to_mysql_is_encoded (self : MySQLConverter) (v w : value) :
  to_mysql rt self v = Return w -> is_encoded w = true.
Proof.
  intros H. destruct (is_temporal_value v) eqn:Ht.
  - destruct (temporal_text_of _ _ rt self v Ht) as (s & Hs & _).
    rewrite Hs in H. now replace w with (PStr s : value) by congruence.
  - rewrite to_mysql_dispatch in H.
    destruct v; try discriminate Ht.
    + (* None *) now replace w with (PNone : value) by (cbn in H; congruence).
    + (* bool *)
      now replace w with (PInt (if b then 1 else 0) : value)
        by (destruct b; cbn in H; congruence).
    + (* int *) now replace w with (PInt n : value) by (cbn in H; congruence).
    + (* long *) now replace w with (PLong n : value) by (cbn in H; congruence).
    + (* float *) now replace w with (PFloat f : value) by (cbn in H; congruence).
    + (* Decimal *)
      now replace w with (PStr (Decimal_str rt d) : value)
        by (cbn in H; congruence).
    + (* str *) now replace w with (PStr s : value) by (cbn in H; congruence).
    + (* unicode *)
      unfold _unicode_to_mysql, HexLiteral_new in H. cbn [bind text_encode] in H.
      destruct (codec_encode rt (charset self) u) as [b|e]; cbn [bind] in H.
      * destruct (existsb _ _ && _); cbn [bind try_except] in H;
          [ now replace w with
              (PHexLiteral
                 (mk_HexLiteral (PyStr.join (map PyNum.fmt_x (PyStr.ords b)))
                                (charset self) (TUnicode u)) : value)
              by congruence
          | now replace w with (PStr b : value) by congruence ].
      * cbn [try_except] in H. destruct (is_AttributeError _); discriminate H.
    + (* HexLiteral *) cbn in H. discriminate H.
    + (* struct_time *)
      unfold _struct_time_to_mysql in H.
      destruct (time_strftime rt _ st) as [s|e]; cbn [bind try_except] in H.
      * now replace w with (PStr s : value) by congruence.
      * destruct (is_AttributeError _); discriminate H.
    + (* set *) cbn in H. discriminate H.
Qed.

(** Whatever [to_mysql] returns can be escaped and quoted: the pipeline
    from an accepted value to its literal does not fail after [to_mysql],
    and the literal is a byte string. *)
Theorem encoded_values_escape_and_quote
    (self : MySQLConverter) (v w : value) :
  to_mysql rt self v = Return w ->
  exists x t, escape w = Return x /\ quote rt x = Return (PStr t).
Proof.
  intros H. apply to_mysql_is_encoded in H.
  destruct w; try discriminate H; eexists; eexists; split; reflexivity.
Qed.

(** Encoding twice: a value that [to_mysql] returned is returned as it is
    by a second [to_mysql], unless it is a [HexLiteral]. *)
Theorem to_mysql_twice (self : MySQLConverter) (v w : value) :
  to_mysql rt self v = Return w ->
  (exists h, w = PHexLiteral h) \/ to_mysql rt self w = Return w.
Proof.
  intros H. apply to_mysql_is_encoded in H.
  destruct w; try discriminate H; try (right; reflexivity).
  left. now exists h.
Qed.

(** The failures of [to_mysql].  A value of a class for which the
    converter has no method ([HexLiteral], [set]) is refused with the
    [TypeError] that names the class in lower case.  A unicode string and
    a [struct_time] fail exactly when the codec, or [time.strftime], fails,
    and with that failure, except that an [AttributeError] is replaced by
    the same [TypeError].  A value of any other class is never refused.
    So no [AttributeError] comes out of [to_mysql]. *)
Theorem to_mysql_failures (self : MySQLConverter) (v : value) :
  match v with
  | PHexLiteral _ | PSet _ =>
      to_mysql rt self v
      = raise TypeError
          ("Python '" ++ PyStr.lower (class_name v)
           ++ "' cannot be converted to a MySQL type")
  | PUnicode u =>
      match codec_encode rt (charset self) u with
      | Return _ => exists w, to_mysql rt self v = Return w
      | Raise e =>
          to_mysql rt self v
          = if is_AttributeError (exn_kind e)
            then raise TypeError
                   "Python 'unicode' cannot be converted to a MySQL type"
            else Raise e
      end
  | PStructTime st =>
      match time_strftime rt "%Y-%m-%d %H:%M:%S" st with
      | Return s => to_mysql rt self v = Return (PStr s)
      | Raise e =>
          to_mysql rt self v
          = if is_AttributeError (exn_kind e)
            then raise TypeError
                   "Python 'struct_time' cannot be converted to a MySQL type"
            else Raise e
      end
  | _ => exists w, to_mysql rt self v = Return w
  end
  /\ (forall e, to_mysql rt self v = Raise e -> exn_kind e <> AttributeError).
Proof.
  split.
  - destruct (is_temporal_value v) eqn:Ht.
    + destruct (temporal_text_of _ _ rt self v Ht) as (s & Hs & _).
      destruct v; try discriminate Ht; now exists (PStr s).
    + rewrite to_mysql_dispatch.
      destruct v; try discriminate Ht; try reflexivity;
        try (eexists; reflexivity).
      * (* bool *) destruct b; eexists; reflexivity.
      * (* unicode *)
        unfold _unicode_to_mysql, HexLiteral_new. cbn [bind text_encode].
        destruct (codec_encode rt (charset self) u) as [b|e];
          cbn [bind try_except]; [|reflexivity].
        destruct (existsb _ _ && _); eexists; reflexivity.
      * (* struct_time *)
        unfold _struct_time_to_mysql.
        destruct (time_strftime rt _ st) as [s|e]; reflexivity.
  - unfold to_mysql, try_except.
    destruct (match getattr_to_mysql _ _ rt _ with
              | Some method => method self v
              | None => raise AttributeError "no such attribute"
              end) as [w|e'].
    + discriminate.
    + destruct (is_AttributeError (exn_kind e')) eqn:E.
      * intros e [= <-]. discriminate.
      * intros e [= <-]. intros K. rewrite K in E. discriminate E.
Qed.

(** A unicode string that the codec can encode is never refused: it
    becomes the bytes of the codec, or, for a character set of the
    backslash-sensitive family whose bytes hold a backslash, a
    [HexLiteral] of those same bytes that keeps the string and the
    character set. *)
Theorem unicode_to_mysql_encoded
    (self : MySQLConverter) (u : list N) (b : string) :
  codec_encode rt (charset self) u = Return b ->
  to_mysql rt self (PUnicode u)
  = Return
      (if existsb (Z.eqb (charset_id self)) (slash_charsets rt)
          && PyStr.contains BACKSLASH b
       then PHexLiteral
              (mk_HexLiteral (PyStr.join (map PyNum.fmt_x (PyStr.ords b)))
                             (charset self) (TUnicode u))
       else PStr b).
Proof.
  intros H. rewrite to_mysql_dispatch.
  unfold _unicode_to_mysql, HexLiteral_new. cbn [bind text_encode].
  rewrite H. cbn [bind].
  now destruct (existsb _ _ && _).
Qed.

End Encoded.

(** ** The dispatch of [to_python] *)

Lemma dict_get_set {A : Type} (d : list (Z * A)) (k k' : Z) (v : A) :
  Dict.get (Dict.set d k v) k'
  = if k =? k' then Some v else Dict.get d k'.
Proof.
  induction d as [|[k0 v0] d IH]; cbn [Dict.set Dict.get].
  - reflexivity.
  - destruct (Z.eqb_spec k0 k) as [->|Hk]; cbn [Dict.get].
    + now destruct (k =? k').
    + destruct (Z.eqb_spec k0 k') as [->|Hk'].
      * destruct (Z.eqb_spec k k'); [congruence | reflexivity].
      * exact IH.
Qed.

Lemma fill_cache_other (items : list (string * Z))
    (cache : list (Z * py_decoder)) (code : Z) :
  ~ In code (map snd items) ->
  Dict.get (fill_cache items cache) code = Dict.get cache code.
Proof.
  revert cache. unfold fill_cache.
  induction items as [|[n c] items IH]; intros cache Hnot; [reflexivity|].
  cbn [fold_left fst snd]. cbn [map snd In] in Hnot.
  rewrite IH by tauto.
  destruct (getattr_to_python _); [|reflexivity].
  rewrite dict_get_set. destruct (Z.eqb_spec c code); [tauto | reflexivity].
Qed.

Lemma fill_cache_member (items : list (string * Z))
    (cache : list (Z * py_decoder)) (name : string) (code : Z) :
  NoDup (map snd items) ->
  In (name, code) items ->
  Dict.get (fill_cache items cache) code
  = match getattr_to_python ("_" ++ name ++ "_to_python") with
    | Some method => Some method
    | None => Dict.get cache code
    end.
Proof.
  revert cache. unfold fill_cache.
  induction items as [|[n c] items IH]; intros cache Hnd Hin; [easy|].
  cbn [map snd] in Hnd. inversion Hnd as [|? ? Hnot Hnd']; subst.
  cbn [fold_left fst snd].
  destruct Hin as [[= -> ->] | Hin].
  - fold (fill_cache items
            (match getattr_to_python ("_" ++ name ++ "_to_python") with
             | Some method => Dict.set cache code method
             | None => cache
             end)).
    rewrite fill_cache_other by assumption.
    destruct (getattr_to_python _); [|reflexivity].
    now rewrite dict_get_set, Z.eqb_refl.
  - rewrite (IH _ Hnd' Hin).
    destruct (getattr_to_python ("_" ++ name ++ "_to_python"));
      [reflexivity|].
    destruct (getattr_to_python _); [|reflexivity].
    rewrite dict_get_set.
    destruct (Z.eqb_spec c code) as [->|]; [|reflexivity].
    exfalso. apply Hnot. change code with (snd (name, code)).
    now apply in_map.
Qed.

Section Dispatch.

Variables pyfloat decimal : Type.
Variable rt : Runtime pyfloat decimal.

Abbreviation value := (pyval pyfloat decimal).

(** When the type codes of [FieldType.desc] are distinct, the method
    that [to_python] calls for the code of a type is the method named
    after the type, and there is none for a type without such a method or
    for a code that the table does not list. *)
Theorem decoder_of_table (name : string) (code : Z) :
  NoDup (map snd (FieldType_desc rt)) ->
  (In (name, code) (FieldType_desc rt) ->
   decoder_of rt code = getattr_to_python ("_" ++ name ++ "_to_python"))
  /\ (~ In code (map snd (FieldType_desc rt)) -> decoder_of rt code = None).
Proof.
  intros Hnd. unfold decoder_of. split.
  - intros Hin. rewrite (fill_cache_member _ _ name code Hnd Hin).
    now destruct (getattr_to_python _).
  - intros Hnot. now rewrite fill_cache_other.
Qed.

(** A type code without a method: the text is returned as it is. *)
Theorem to_python_unknown_type
    (self : MySQLConverter) (dsc : flddsc) (v : string) :
  cache_ok rt self ->
  decoder_of rt (fd_type dsc) = None ->
  fst (to_python rt self dsc (Some v))
  = if String.eqb v NUL && negb (fd_type dsc =? FieldType_BIT rt)
    then Return PNone else Return (PStr v).
Proof.
  intros Hok Hdec. unfold to_python.
  destruct (String.eqb v NUL && _); [reflexivity|].
  cbn [fst]. rewrite (ensure_cache_filled _ _ rt self Hok).
  unfold decoder_of in Hdec. now rewrite Hdec.
Qed.

Lemma to_python_same_config (s1 s2 : MySQLConverter) (dsc : flddsc)
    (v : option string) :
  cache_ok rt s1 -> cache_ok rt s2 ->
  charset s1 = charset s2 -> use_unicode s1 = use_unicode s2 ->
  fst (to_python rt s1 dsc v) = fst (to_python rt s2 dsc v).
Proof.
  intros H1 H2 Hc Hu. unfold to_python.
  destruct v as [v|]; [|reflexivity].
  destruct (String.eqb v NUL && _); [reflexivity|].
  cbn [fst].
  rewrite (ensure_cache_filled _ _ rt s1 H1), (ensure_cache_filled _ _ rt s2 H2).
  destruct (Dict.get _ _) as [m|]; [|reflexivity].
  f_equal. apply call_decoder_config.
  - destruct (ensure_cache_config _ _ rt s1) as [-> _].
    now destruct (ensure_cache_config _ _ rt s2) as [-> _].
  - destruct (ensure_cache_config _ _ rt s1) as [_ ->].
    now destruct (ensure_cache_config _ _ rt s2) as [_ ->].
Qed.

(** The cache does not show: a call of [to_python] leaves the character
    set and the unicode flag of the converter as they were, and a later
    call gives what it would have given on the converter before. *)
Theorem to_python_cache_transparent
    (self : MySQLConverter) (dsc1 dsc2 : flddsc) (v1 v2 : option string) :
  cache_ok rt self ->
  let self' := snd (to_python rt self dsc1 v1) in
  charset self' = charset self
  /\ use_unicode self' = use_unicode self
  /\ charset_id self' = charset_id self
  /\ fst (to_python rt self' dsc2 v2) = fst (to_python rt self dsc2 v2).
Proof.
  intros Hok self'.
  assert (Hcfg : charset self' = charset self
                 /\ use_unicode self' = use_unicode self
                 /\ charset_id self' = charset_id self).
  { unfold self', to_python. destruct v1 as [v|]; [|easy].
    destruct (String.eqb v NUL && _); [easy|].
    cbn [snd]. unfold ensure_cache. now destruct (Dict.is_empty _). }
  destruct Hcfg as (Hc & Hu & Hi). repeat split; try assumption.
  apply to_python_same_config; try assumption.
  now apply to_python_cache_ok.
Qed.

(** The [except] clauses of [to_python], for every column and every text.
    A type code without a method, and a [KeyError] out of the method, are
    answered with the text itself.  A [ValueError] out of the method, a
    Unicode error among them, is raised as a [ValueError] whose message is
    that of the method followed by the name of the column; a [TypeError]
    likewise as a [TypeError].  Any other exception is raised as it is.
    So [to_python] raises neither [KeyError] nor a Unicode error. *)
Theorem to_python_resignals
    (self : MySQLConverter) (dsc : flddsc) (v : string) :
  cache_ok rt self ->
  fst (to_python rt self dsc (Some v))
  = (if String.eqb v NUL && negb (fd_type dsc =? FieldType_BIT rt)
     then Return PNone
     else
       match decoder_of rt (fd_type dsc) with
       | None => Return (PStr v)
       | Some method =>
           match call_decoder rt method self v dsc with
           | Return r => Return r
           | Raise err =>
               match exn_kind err with
               | KeyError => Return (PStr v)
               | ValueError | UnicodeDecodeError | UnicodeEncodeError =>
                   raise ValueError
                     (exn_msg err ++ " (field " ++ fd_name dsc ++ ")")
               | TypeError =>
                   raise TypeError
                     (exn_msg err ++ " (field " ++ fd_name dsc ++ ")")
               | _ => Raise err
               end
           end
       end)
  /\ (forall e,
        fst (to_python rt self dsc (Some v)) = Raise e ->
        exn_kind e <> KeyError
        /\ exn_kind e <> UnicodeDecodeError
        /\ exn_kind e <> UnicodeEncodeError).
Proof.
  intros Hok. split.
  - destruct (String.eqb v NUL && negb (fd_type dsc =? FieldType_BIT rt))
      eqn:Hnul.
    + unfold to_python. now rewrite Hnul.
    + destruct (decoder_of rt (fd_type dsc)) as [m|] eqn:Hdec.
      * rewrite (to_python_calls _ _ rt self dsc v m Hok Hnul Hdec).
        unfold resignal.
        destruct (call_decoder rt m self v dsc) as [r|[k msg]];
          [reflexivity|].
        now destruct k.
      * unfold to_python. rewrite Hnul. cbn [fst].
        rewrite (ensure_cache_filled _ _ rt self Hok).
        unfold decoder_of in Hdec. now rewrite Hdec.
  - unfold to_python.
    destruct (String.eqb v NUL && _); [discriminate|].
    cbn [fst]. unfold resignal.
    destruct (match Dict.get _ _ with
              | Some method => _
              | None => _
              end) as [r|err]; [discriminate|].
    destruct err as [k msg]. cbn [exn_kind exn_msg].
    destruct k; cbn [is_KeyError is_ValueError is_TypeError];
      intros e H; try discriminate H; injection H as <-;
      cbn [exn_kind]; repeat split; discriminate.
Qed.

End Dispatch.

(** ** Bytes *)

Lemma ords_append (a b : string) :
  PyStr.ords (a ++ b) = (PyStr.ords a ++ PyStr.ords b)%list.
Proof. induction a as [|c a IH]; simpl; [reflexivity | now rewrite IH]. Qed.

Lemma fold_zero_bytes (k : nat) (l : list N) :
  fold_left (fun acc b => acc * 256 + Z.of_N b)
    (PyStr.ords (PyStr.repeat "000"%char k) ++ l)%list 0
  = fold_left (fun acc b => acc * 256 + Z.of_N b) l 0.
Proof. induction k as [|k IH]; [reflexivity | exact IH]. Qed.

Lemma big_endian_padded (k : nat) (s : string) :
  big_endian (PyStr.repeat "000"%char k ++ s) = big_endian s.
Proof. unfold big_endian. rewrite ords_append. apply fold_zero_bytes. Qed.

Lemma fold_bytes_bound (s : string) (acc : Z) :
  0 <= acc ->
  acc * 256 ^ Z.of_nat (String.length s)
  <= fold_left (fun a b => a * 256 + Z.of_N b) (PyStr.ords s) acc
  < (acc + 1) * 256 ^ Z.of_nat (String.length s).
Proof.
  revert acc. induction s as [|c s IH]; intros acc Hacc.
  - cbn. lia.
  - cbn [PyStr.ords fold_left String.length].
    pose proof (N_ascii_bounded c) as Hc.
    assert (Hb : 0 <= Z.of_N (N_of_ascii c) < 256) by lia.
    specialize (IH (acc * 256 + Z.of_N (N_of_ascii c)) ltac:(lia)).
    rewrite Nat2Z.inj_succ, Z.pow_succ_r by lia.
    assert (Hp : 0 < 256 ^ Z.of_nat (String.length s))
      by (apply Z.pow_pos_nonneg; lia).
    nia.
Qed.

Lemma big_endian_bound (s : string) :
  0 <= big_endian s < 256 ^ Z.of_nat (String.length s).
Proof.
  pose proof (fold_bytes_bound s 0 ltac:(lia)) as H.
  unfold big_endian. lia.
Qed.

Lemma fmt_x_hex (n : N) : PyStr.forallb is_hex_digit (PyNum.fmt_x n) = true.
Proof.
  unfold PyNum.fmt_x. induction (N.to_hex_uint n); simpl; auto.
Qed.

Lemma join_forallb (p : ascii -> bool) (l : list string) :
  Forall (fun s => PyStr.forallb p s = true) l ->
  PyStr.forallb p (PyStr.join l) = true.
Proof.
  induction 1 as [|s l Hs _ IH]; [reflexivity|].
  cbn [PyStr.join]. now rewrite forallb_append, Hs, IH.
Qed.

Lemma is_hex_not_special (c : ascii) :
  is_hex_digit c = true -> negb (is_special c) = true.
Proof.
  destruct c as [[|] [|] [|] [|] [|] [|] [|] [|]];
    solve [reflexivity | discriminate].
Qed.

Lemma fmt_x_two_digits (c : ascii) :
  (16 <=? N_of_ascii c)%N = true ->
  PyNum.fmt_x (N_of_ascii c)
  = String (hex_digit (N_of_ascii c / 16))
      (String (hex_digit (N_of_ascii c mod 16)) EmptyString).
Proof.
  destruct c as [[|] [|] [|] [|] [|] [|] [|] [|]];
    solve [reflexivity | discriminate].
Qed.

Section Bytes.

Variables pyfloat decimal : Type.
Variable rt : Runtime pyfloat decimal.

Abbreviation value := (pyval pyfloat decimal).

(** A BIT text of at most eight bytes is the unsigned big-endian integer
    of its bytes, below 2^64 (the empty text is zero); a longer text
    raises the error of [struct.unpack]. *)
Theorem BIT_big_endian (self : MySQLConverter) (dsc : flddsc) (v : string) :
  ((String.length v <= 8)%nat ->
   _BIT_to_python rt self v dsc = Return (int_obj rt (big_endian v))
   /\ 0 <= big_endian v < 2 ^ 64)
  /\ ((8 < String.length v)%nat ->
      exists msg, _BIT_to_python rt self v dsc = raise StructError msg).
Proof.
  split.
  - intros Hlen. split.
    + unfold _BIT_to_python, unpack_Q.
      destruct (Nat.ltb_spec (String.length v) 8) as [Hlt|Hge].
      * rewrite length_append, length_repeat.
        replace (8 - String.length v + String.length v)%nat with 8%nat by lia.
        cbn [Nat.eqb bind].
        fold (big_endian (PyStr.repeat "000"%char (8 - String.length v) ++ v)).
        now rewrite big_endian_padded.
      * replace (String.length v) with 8%nat by lia. reflexivity.
    + pose proof (big_endian_bound v) as Hb.
      assert (256 ^ Z.of_nat (String.length v) <= 256 ^ 8)
        by (apply Z.pow_le_mono_r; lia).
      change (2 ^ 64) with (256 ^ 8). lia.
  - intros Hlen. unfold _BIT_to_python, unpack_Q.
    destruct (Nat.ltb_spec (String.length v) 8) as [Hlt|Hge]; [lia|].
    destruct (Nat.eqb_spec (String.length v) 8) as [E|_]; [lia|].
    eexists. reflexivity.
Qed.

(** With the SET flag, a STRING text is the set of its comma-separated
    parts, each part once, whatever the BINARY flag and the unicode flag
    of the converter; the text is not decoded. *)
Theorem STRING_with_SET_flag (self : MySQLConverter) (dsc : flddsc)
    (v : string) :
  Z.land (fd_flags dsc) (FieldFlag_SET rt) <> 0 ->
  exists l,
    _STRING_to_python rt self v dsc = Return (PSet l)
    /\ NoDup l
    /\ (forall part, In part l <-> In part (PyStr.split "," v)).
Proof.
  intros Hset. apply Z.eqb_neq in Hset.
  unfold _STRING_to_python. rewrite Hset. cbn [negb].
  eexists. split; [reflexivity|]. split.
  - apply NoDup_nodup.
  - intros part. apply nodup_In.
Qed.

(** With the BINARY flag, a BLOB text is returned as it is even when the
    SET flag is there too, and a STRING text is returned as it is when the
    SET flag is not; neither the unicode flag nor the character set of the
    converter counts. *)
Theorem BINARY_flag_raw_bytes (self : MySQLConverter) (dsc : flddsc)
    (v : string) :
  Z.land (fd_flags dsc) (FieldFlag_BINARY rt) <> 0 ->
  _BLOB_to_python rt self v dsc = Return (PStr v)
  /\ (Z.land (fd_flags dsc) (FieldFlag_SET rt) = 0 ->
      _STRING_to_python rt self v dsc = Return (PStr v)).
Proof.
  intros Hbin. apply Z.eqb_neq in Hbin. split.
  - unfold _BLOB_to_python. now rewrite Hbin.
  - intros Hset. unfold _STRING_to_python. now rewrite Hset, Hbin.
Qed.

(** The digits of a [HexLiteral] are hexadecimal digits only, so that its
    literal, [0x] and the digits, which [escape] and [quote] leave as it
    is, holds no special character. *)
Theorem HexLiteral_literal_is_safe (str_ : text) (cs : string)
    (h : HexLiteral) :
  HexLiteral_new rt str_ cs = Return h ->
  PyStr.forallb is_hex_digit (hl_str h) = true
  /\ (x <- escape (PHexLiteral h : value) ;; quote rt x)
     = Return (PStr ("0x" ++ hl_str h))
  /\ plain (TStr ("0x" ++ hl_str h)) = true.
Proof.
  unfold HexLiteral_new.
  destruct (text_encode rt str_ cs) as [encoded|e]; cbn [bind];
    [|discriminate].
  intros [= <-]. cbn [hl_str].
  assert (Hhex : PyStr.forallb is_hex_digit
                   (PyStr.join (map PyNum.fmt_x (PyStr.ords encoded))) = true).
  { apply join_forallb. apply Forall_forall. intros s Hs.
    apply in_map_iff in Hs as (n & <- & _). apply fmt_x_hex. }
  split; [exact Hhex|]. split; [reflexivity|].
  cbn [plain]. change ("0x" ++ ?s) with (String "0" (String "x" s)).
  cbn [PyStr.forallb]. cbn.
  revert Hhex. apply forallb_impl, is_hex_not_special.
Qed.

(** When no byte of the encoded string is below 16, the digits of the
    [HexLiteral] are the hexadecimal encoding of the bytes, two digits
    for every byte. *)
Theorem HexLiteral_exact_from_16 (str_ : text) (cs encoded : string) :
  text_encode rt str_ cs = Return encoded ->
  PyStr.forallb (fun c => (16 <=? N_of_ascii c)%N) encoded = true ->
  HexLiteral_new rt str_ cs
  = Return (mk_HexLiteral (hexlify encoded) cs str_).
Proof.
  intros Henc Hbig. unfold HexLiteral_new. rewrite Henc. cbn [bind].
  do 2 f_equal. clear Henc.
  induction encoded as [|c s IH]; [reflexivity|].
  cbn [PyStr.forallb] in Hbig. apply andb_true_iff in Hbig as [Hc Hs].
  cbn [PyStr.ords map PyStr.join hexlify].
  rewrite (fmt_x_two_digits c Hc), (IH Hs). reflexivity.
Qed.

End Bytes.

(** ** Dates, durations and integers *)

Ltac sep_free :=
  repeat (rewrite contains_append || rewrite contains_cons);
  rewrite ?digits_no_sep
    by first [ reflexivity
             | apply fmt_0d_digits; lia
             | apply str_of_Z_digits; lia ];
  reflexivity.

Ltac nest_right :=
  repeat first [rewrite append_assoc | progress (cbn [append])].

Lemma check_date_args_calendar (y m d : Z) :
  is_calendar_date y m d = true -> Datetime.check_date_args y m d = Return tt.
Proof.
  unfold is_calendar_date, Datetime.check_date_args.
  destruct (Datetime.MINYEAR <=? y), (y <=? Datetime.MAXYEAR),
    (1 <=? m), (m <=? 12), (1 <=? d), (d <=? Datetime.days_in_month y m);
    solve [reflexivity | discriminate].
Qed.

Lemma check_date_args_not_calendar (y m d : Z) :
  is_calendar_date y m d = false ->
  exists msg, Datetime.check_date_args y m d = raise ValueError msg.
Proof.
  unfold is_calendar_date, Datetime.check_date_args.
  destruct (Datetime.MINYEAR <=? y), (y <=? Datetime.MAXYEAR),
    (1 <=? m), (m <=? 12), (1 <=? d), (d <=? Datetime.days_in_month y m);
    cbn [andb negb]; intros H; try discriminate H; eexists; reflexivity.
Qed.

Lemma py_int_minus_digits (s : string) :
  PyStr.forallb PyStr.is_digit s = true ->
  PyNum.py_int (String "-" s) = option_map Z.opp (PyNum.digits_value s).
Proof.
  intros H. unfold PyNum.py_int.
  rewrite strip_id; [reflexivity|].
  cbn [PyStr.forallb]. cbn.
  revert H. apply forallb_impl, is_digit_not_space.
Qed.

Lemma digits_value_fmt_0d (w : nat) (z : Z) :
  0 <= z -> PyNum.digits_value (PyNum.fmt_0d w z) = Some z.
Proof.
  intros Hz. rewrite <- py_int_digits by now apply fmt_0d_digits.
  now apply py_int_fmt_0d.
Qed.

Lemma digits_value_str_of_N (n : N) :
  PyNum.digits_value (PyNum.str_of_N n) = Some (Z.of_N n).
Proof.
  pose proof (py_int_str_of_Z (Z.of_N n) ltac:(lia)) as H.
  rewrite py_int_digits in H by (apply str_of_Z_digits; lia).
  unfold PyNum.str_of_Z in H.
  destruct (Z.ltb_spec (Z.of_N n) 0); [lia|].
  now rewrite N2Z.id in H.
Qed.

(** [int()] reads back the decimal text of every integer. *)
Lemma py_int_str_of_Z_all (z : Z) : PyNum.py_int (PyNum.str_of_Z z) = Some z.
Proof.
  destruct (Z.ltb_spec z 0) as [Hneg|Hpos].
  - unfold PyNum.str_of_Z. destruct (Z.ltb_spec z 0); [|lia].
    rewrite py_int_minus_digits by apply str_of_N_digits.
    rewrite digits_value_str_of_N. cbn [option_map]. f_equal. lia.
  - now apply py_int_str_of_Z.
Qed.

Lemma str_of_Z_not_NUL (z : Z) : String.eqb (PyNum.str_of_Z z) NUL = false.
Proof.
  unfold PyNum.str_of_Z. destruct (z <? 0); [reflexivity|].
  rewrite <- (append_empty_r (PyNum.str_of_N (Z.to_N z))).
  apply digit_start_not_NUL;
    [apply str_of_N_digits | apply str_of_N_nonempty].
Qed.

Section Values.

Variables pyfloat decimal : Type.
Variable rt : Runtime pyfloat decimal.

Abbreviation value := (pyval pyfloat decimal).

(** A DATE text of three zero-padded numbers, of any widths, is the date
    of these numbers when they make a calendar date, and null when they
    do not, as for the zero date. *)
Theorem DATE_calendar_or_null (self : MySQLConverter) (dsc : flddsc)
    (wy wm wd : nat) (y m d : Z) :
  0 <= y <= 2147483647 -> 0 <= m <= 2147483647 -> 0 <= d <= 2147483647 ->
  _DATE_to_python rt self
    (PyNum.fmt_0d wy y ++ "-" ++ PyNum.fmt_0d wm m ++ "-" ++ PyNum.fmt_0d wd d)
    dsc
  = if is_calendar_date y m d then Return (PDate (mk_date y m d))
    else Return PNone.
Proof.
  intros Hy Hm Hd. unfold _DATE_to_python.
  change (PyNum.fmt_0d wy y ++ "-" ++ PyNum.fmt_0d wm m ++ "-"
          ++ PyNum.fmt_0d wd d)
    with (PyNum.fmt_0d wy y
          ++ String "-" (PyNum.fmt_0d wm m ++ String "-" (PyNum.fmt_0d wd d))).
  rewrite !split_first, split_whole by sep_free.
  cbn [getitem nth_error bind].
  rewrite !(int_fmt_0d _ _ rt) by lia. cbn [bind].
  unfold Datetime.date_new. rewrite !c_int_ok by lia. cbn [bind].
  destruct (is_calendar_date y m d) eqn:E.
  - now rewrite check_date_args_calendar.
  - destruct (check_date_args_not_calendar y m d E) as (msg & ->).
    reflexivity.
Qed.

(** A DATE text is read up to its third part: what follows a third
    hyphen does not count. *)
Theorem DATE_ignores_further_parts (self : MySQLConverter) (dsc : flddsc)
    (a b c rest : string) :
  PyStr.contains "-" a = false ->
  PyStr.contains "-" b = false ->
  PyStr.contains "-" c = false ->
  _DATE_to_python rt self
    (a ++ String "-" (b ++ String "-" (c ++ String "-" rest))) dsc
  = _DATE_to_python rt self (a ++ String "-" (b ++ String "-" c)) dsc.
Proof.
  intros Ha Hb Hc. unfold _DATE_to_python.
  rewrite !split_first by assumption.
  rewrite (split_whole "-" c) by assumption.
  reflexivity.
Qed.

(** The decimal text of an integer, which is what [quote] writes for it,
    is read back to that integer by the methods of the integer columns and
    of YEAR. *)
Theorem integer_literal_read_back (self : MySQLConverter) (dsc : flddsc)
    (m : py_decoder) (z : Z) :
  cache_ok rt self ->
  decoder_of rt (fd_type dsc) = Some m ->
  m = INT_to_python \/ m = LONG_to_python \/ m = YEAR_to_python ->
  quote rt (PInt z) = Return (PStr (PyNum.str_of_Z z))
  /\ fst (to_python rt self dsc (Some (PyNum.str_of_Z z)))
     = Return (int_obj rt z).
Proof.
  intros Hok Hdec Hm. split; [reflexivity|].
  rewrite (to_python_calls _ _ rt self dsc _ m Hok);
    [| now rewrite str_of_Z_not_NUL | assumption].
  destruct Hm as [-> | [-> | ->]]; cbn [call_decoder];
    unfold _INT_to_python, _LONG_to_python, _YEAR_to_python, int_;
    now rewrite py_int_str_of_Z_all.
Qed.

End Values.

Lemma fmt_0d_not_empty (w : nat) (z : Z) :
  0 <= z -> PyNum.fmt_0d w z <> EmptyString.
Proof.
  intros Hz E. apply (f_equal String.length) in E.
  unfold PyNum.fmt_0d in E. destruct (Z.ltb_spec z 0); [lia|].
  rewrite length_rjust in E.
  pose proof (str_of_N_nonempty (Z.to_N z)) as Hne.
  destruct (PyNum.str_of_N (Z.to_N z)); [congruence|].
  cbn [String.length] in E. lia.
Qed.

(** The duration that [timedelta] makes of hours, minutes, seconds and
    microseconds that add up to a normalized duration. *)
Lemma timedelta_new_total (h mi s us : Z) (td : timedelta) :
  normalized td ->
  (h * 3600 + mi * 60 + s) * 1000000 + us
  = (td_days td * 86400 + td_seconds td) * 1000000 + td_microseconds td ->
  Datetime.timedelta_new h mi s us = Return td.
Proof.
  destruct td as [days secs us0]. unfold normalized.
  cbn [td_days td_seconds td_microseconds].
  intros (Hd & Hs & Hu) Htotal.
  unfold Datetime.timedelta_new. rewrite Htotal.
  set (total := (days * 86400 + secs) * 1000000 + us0).
  assert (Hdiv : total / 86400000000 = days).
  { symmetry. apply (Z.div_unique _ _ _ (secs * 1000000 + us0));
      [left; lia | unfold total; lia]. }
  assert (Hmod : total mod 86400000000 = secs * 1000000 + us0).
  { symmetry. apply (Z.mod_unique _ _ days);
      [left; lia | unfold total; lia]. }
  rewrite Hdiv, Hmod.
  destruct (Z.ltb_spec days (-999999999)); [lia|].
  destruct (Z.ltb_spec 999999999 days); [lia|].
  cbn [orb]. do 2 f_equal.
  - symmetry. apply (Z.div_unique _ _ _ us0); [left; lia | lia].
  - symmetry. apply (Z.mod_unique _ _ secs); [left; lia | lia].
Qed.

Section Durations.

Variables pyfloat decimal : Type.
Variable rt : Runtime pyfloat decimal.

Abbreviation value := (pyval pyfloat decimal).

Lemma int_minus_fmt_0d (w : nat) (z : Z) :
  0 <= z -> int_ rt (String "-" (PyNum.fmt_0d w z)) = Return (- z).
Proof.
  intros Hz. unfold int_.
  rewrite py_int_minus_digits by now apply fmt_0d_digits.
  now rewrite digits_value_fmt_0d.
Qed.

Lemma TIME_of_signed_text (self : MySQLConverter) (dsc : flddsc)
    (neg : bool) (h mi s : Z) (frac : option Z) :
  0 <= h -> 0 <= mi -> 0 <= s ->
  (forall us, frac = Some us -> 0 <= us) ->
  let sg z := if neg then - z else z in
  _TIME_to_python rt self (TIME_text neg h mi s frac) dsc
  = try_except
      (time_val <- Datetime.timedelta_new (sg h) (sg mi) (sg s)
                     (sg (match frac with Some us => us | None => 0 end)) ;;
       Return (PTimedelta time_val))
      is_ValueError
      (fun _ => raise ValueError
                  ("Could not convert " ++ TIME_text neg h mi s frac
                   ++ " to python datetime.timedelta")).
Proof.
  intros Hh Hmi Hs Hfrac sg. unfold _TIME_to_python.
  destruct frac as [us|].
  - assert (Hus : 0 <= us) by now apply Hfrac.
    set (v := TIME_text neg h mi s (Some us)).
    destruct neg; unfold v, TIME_text; cbn [append].
    + change (String "-"
                ((PyNum.fmt_0d 2 h
                  ++ String ":" (PyNum.fmt_0d 2 mi
                                 ++ String ":" (PyNum.fmt_0d 2 s)))
                 ++ String "." (PyNum.fmt_0d 6 us)))
        with ((String "-"
                 (PyNum.fmt_0d 2 h
                  ++ String ":" (PyNum.fmt_0d 2 mi
                                 ++ String ":" (PyNum.fmt_0d 2 s))))
              ++ String "." (PyNum.fmt_0d 6 us)).
      rewrite split_first, split_whole by sep_free.
      cbn [unpack2 bind snd fst].
      rewrite ljust_long by (apply length_fmt_06d; lia).
      rewrite (int_fmt_0d _ _ rt) by lia. cbn [bind try_except].
      change (String "-"
                (PyNum.fmt_0d 2 h
                 ++ String ":" (PyNum.fmt_0d 2 mi
                                ++ String ":" (PyNum.fmt_0d 2 s))))
        with (String "-" (PyNum.fmt_0d 2 h)
              ++ String ":" (PyNum.fmt_0d 2 mi
                             ++ String ":" (PyNum.fmt_0d 2 s))).
      rewrite !split_first, split_whole by sep_free.
      cbn [ints]. rewrite int_minus_fmt_0d, !(int_fmt_0d _ _ rt) by lia.
      cbn [bind unpack3 append Ascii.eqb Bool.eqb]. reflexivity.
    + rewrite split_first, split_whole by sep_free.
      cbn [unpack2 bind snd fst].
      rewrite ljust_long by (apply length_fmt_06d; lia).
      rewrite (int_fmt_0d _ _ rt) by lia. cbn [bind try_except].
      rewrite !split_first, split_whole by sep_free.
      cbn [ints]. rewrite !(int_fmt_0d _ _ rt) by lia.
      cbn [bind unpack3].
      rewrite append_assoc.
      destruct (first_char_digit (PyNum.fmt_0d 2 h)
                  (String ":" (PyNum.fmt_0d 2 mi
                               ++ String ":" (PyNum.fmt_0d 2 s))
                   ++ String "." (PyNum.fmt_0d 6 us)))
        as (c & r & E & Hc);
        [apply fmt_0d_digits; lia | apply fmt_0d_not_empty; lia |].
      rewrite E. cbn [bind]. rewrite Hc. reflexivity.
  - destruct neg; unfold TIME_text; cbn [append].
    + rewrite split_whole by sep_free.
      cbn [unpack2 raise try_except exn_kind is_ValueError bind].
      change (String "-"
                (PyNum.fmt_0d 2 h
                 ++ String ":" (PyNum.fmt_0d 2 mi
                                ++ String ":" (PyNum.fmt_0d 2 s))))
        with (String "-" (PyNum.fmt_0d 2 h)
              ++ String ":" (PyNum.fmt_0d 2 mi
                             ++ String ":" (PyNum.fmt_0d 2 s))).
      rewrite !split_first, split_whole by sep_free.
      cbn [ints]. rewrite int_minus_fmt_0d, !(int_fmt_0d _ _ rt) by lia.
      cbn [bind unpack3 append Ascii.eqb Bool.eqb]. reflexivity.
    + rewrite split_whole by sep_free.
      cbn [unpack2 raise try_except exn_kind is_ValueError bind].
      rewrite !split_first, split_whole by sep_free.
      cbn [ints]. rewrite !(int_fmt_0d _ _ rt) by lia.
      cbn [bind unpack3].
      destruct (first_char_digit (PyNum.fmt_0d 2 h)
                  (String ":" (PyNum.fmt_0d 2 mi
                               ++ String ":" (PyNum.fmt_0d 2 s))))
        as (c & r & E & Hc);
        [apply fmt_0d_digits; lia | apply fmt_0d_not_empty; lia |].
      rewrite E. cbn [bind]. rewrite Hc. reflexivity.
Qed.

Lemma TIME_text_not_NUL (neg : bool) (h mi s : Z) (frac : option Z) :
  0 <= h -> String.eqb (TIME_text neg h mi s frac) NUL = false.
Proof.
  intros Hh. unfold TIME_text.
  destruct neg; [now destruct frac|].
  destruct frac; rewrite ?append_assoc;
    (apply digit_start_not_NUL;
       [apply fmt_0d_digits; lia | apply fmt_0d_not_empty; lia]).
Qed.

Ltac injection_some E :=
  match type of E with
  | Some ?a = Some ?b =>
      let E' := fresh in
      assert (E' : a = b) by congruence; clear E; rename E' into E
  end.

Lemma hms_of_seconds (x : Z) :
  0 <= x ->
  0 <= x / 3600 /\ 0 <= x mod 3600 / 60 /\ 0 <= (x mod 3600) mod 60
  /\ x / 3600 * 3600 + x mod 3600 / 60 * 60 + (x mod 3600) mod 60 = x.
Proof.
  intros Hx.
  pose proof (Z.div_mod x 3600 ltac:(lia)).
  pose proof (Z.mod_pos_bound x 3600 ltac:(lia)).
  pose proof (Z.div_mod (x mod 3600) 60 ltac:(lia)).
  pose proof (Z.mod_pos_bound (x mod 3600) 60 ltac:(lia)).
  pose proof (Z.div_pos x 3600 Hx ltac:(lia)).
  pose proof (Z.div_pos (x mod 3600) 60 ltac:(lia) ltac:(lia)).
  lia.
Qed.

Lemma TIME_text_read_back (self : MySQLConverter) (dsc : flddsc)
    (neg : bool) (h mi s : Z) (frac : option Z) (td : timedelta) :
  cache_ok rt self ->
  decoder_of rt (fd_type dsc) = Some TIME_to_python ->
  normalized td ->
  0 <= h -> 0 <= mi -> 0 <= s ->
  (forall us, frac = Some us -> 0 <= us) ->
  (let sg z := if neg then - z else z in
   (sg h * 3600 + sg mi * 60 + sg s) * 1000000
   + sg (match frac with Some us => us | None => 0 end)
   = (td_days td * 86400 + td_seconds td) * 1000000 + td_microseconds td) ->
  fst (to_python rt self dsc (Some (TIME_text neg h mi s frac)))
  = Return (PTimedelta td).
Proof.
  intros Hok Hdec Hnorm Hh Hmi Hs Hfrac Htotal.
  rewrite (to_python_calls _ _ rt self dsc _ TIME_to_python Hok);
    [| now rewrite TIME_text_not_NUL | assumption].
  cbn [call_decoder].
  rewrite TIME_of_signed_text by assumption.
  now rewrite (timedelta_new_total _ _ _ _ _ Hnorm Htotal).
Qed.

(** A normalized duration, encoded by [to_mysql] and decoded as a TIME
    column, comes back as it was: whatever its sign, its number of hours
    and its microseconds. *)
Theorem duration_round_trip
    (self : MySQLConverter) (dsc : flddsc) (td : timedelta) :
  cache_ok rt self ->
  decoder_of rt (fd_type dsc) = Some TIME_to_python ->
  normalized td ->
  exists s,
    to_mysql rt self (PTimedelta td) = Return (PStr s)
    /\ fst (to_python rt self dsc (Some s)) = Return (PTimedelta td).
Proof.
  intros Hok Hdec Hnorm. pose proof Hnorm as Hn.
  destruct td as [days secs us]. unfold normalized in Hn.
  cbn [td_days td_seconds td_microseconds] in Hn.
  destruct Hn as (Hd & Hs & Hu).
  rewrite to_mysql_dispatch. unfold _timedelta_to_mysql.
  cbn [attr_days attr_seconds attr_microseconds bind td_days td_seconds
       td_microseconds].
  remember (Z.abs (days * 86400 + secs)) as x eqn:Hx.
  destruct (Z.eqb_spec us 0) as [Hz|Hnz];
    destruct (Z.ltb_spec days 0) as [Hneg|Hpos];
    cbn [negb bind try_except].
  - (* negative, whole seconds *)
    destruct (hms_of_seconds x ltac:(lia)) as (H1 & H2 & H3 & H4).
    remember (x / 3600) as h. remember (x mod 3600 / 60) as mi.
    remember ((x mod 3600) mod 60) as s.
    exists (TIME_text true h mi s None). split; [reflexivity|].
    apply TIME_text_read_back; try assumption; [discriminate|].
    cbn [td_days td_seconds td_microseconds]. cbv beta iota.
    clear Heqh Heqmi Heqs. lia.
  - (* positive, whole seconds *)
    destruct (hms_of_seconds x ltac:(lia)) as (H1 & H2 & H3 & H4).
    remember (x / 3600) as h. remember (x mod 3600 / 60) as mi.
    remember ((x mod 3600) mod 60) as s.
    exists (TIME_text false h mi s None). split; [reflexivity|].
    apply TIME_text_read_back; try assumption; [discriminate|].
    cbn [td_days td_seconds td_microseconds]. cbv beta iota.
    clear Heqh Heqmi Heqs. lia.
  - (* negative, with microseconds *)
    destruct (hms_of_seconds (x - 1) ltac:(lia)) as (H1 & H2 & H3 & H4).
    remember ((x - 1) / 3600) as h. remember ((x - 1) mod 3600 / 60) as mi.
    remember (((x - 1) mod 3600) mod 60) as s.
    exists (TIME_text true h mi s (Some (1000000 - us))). split.
    + unfold TIME_text. nest_right. reflexivity.
    + apply TIME_text_read_back; try assumption.
      * intros us0 E. injection_some E. clear - Hu E. lia.
      * cbn [td_days td_seconds td_microseconds]. cbv beta iota.
        clear Heqh Heqmi Heqs. lia.
  - (* positive, with microseconds *)
    destruct (hms_of_seconds x ltac:(lia)) as (H1 & H2 & H3 & H4).
    remember (x / 3600) as h. remember (x mod 3600 / 60) as mi.
    remember ((x mod 3600) mod 60) as s.
    exists (TIME_text false h mi s (Some us)). split.
    + unfold TIME_text. nest_right. reflexivity.
    + apply TIME_text_read_back; try assumption.
      * intros us0 E. injection_some E. clear - Hu E. lia.
      * cbn [td_days td_seconds td_microseconds]. cbv beta iota.
        clear Heqh Heqmi Heqs. lia.
Qed.

End Durations.



Section Fractions.

Variables pyfloat decimal : Type.
Variable rt : Runtime pyfloat decimal.


End Fractions.

(** ** Evaluation of the further properties *)

Lemma escape_injective_witness :
  escape (PStr "O'Brien" : pyobj) = escape (PStr "O'Brien")
  /\ "O'Brien" = "O'Brien".
Proof.
  split; [reflexivity|].
  exact (escape_injective string string "O'Brien" "O'Brien" eq_refl).
Defined.

Lemma temporal_values_witness :
  exists s,
    to_mysql Latin1.runtime (Latin1.converter true)
      (PTimedelta Sample.minus_half_second)
    = Return (PStr s)
    /\ escape (PStr s : pyobj) = Return (PStr s)
    /\ quote Latin1.runtime (PStr s) = Return (PStr ("'" ++ s ++ "'")).
Proof.
  exact (temporal_values_need_no_escaping string string Latin1.runtime
           (Latin1.converter true) (PTimedelta Sample.minus_half_second)
           eq_refl).
Defined.

Lemma encoded_values_witness :
  exists (x : pyobj) t,
    escape (PInt 1) = Return x /\ quote Latin1.runtime x = Return (PStr t).
Proof.
  exact (encoded_values_escape_and_quote string string Latin1.runtime
           (Latin1.converter true) (PBool true) (PInt 1) eq_refl).
Defined.

Lemma to_mysql_twice_witness :
  (exists h, (PInt 1 : pyobj) = PHexLiteral h)
  \/ to_mysql Latin1.runtime (Latin1.converter true) (PInt 1)
     = Return (PInt 1).
Proof.
  exact (to_mysql_twice string string Latin1.runtime (Latin1.converter true)
           (PBool true) (PInt 1) eq_refl).
Defined.

Lemma to_mysql_failures_witness :
  to_mysql Latin1.runtime (Latin1.converter true) (PUnicode [256%N])
  = (raise UnicodeEncodeError
       "'latin-1' codec can't encode character: ordinal not in range(256)"
     : result pyobj)
  /\ UnicodeEncodeError <> AttributeError.
Proof.
  split;
    [exact (proj1 (to_mysql_failures string string Latin1.runtime
                     (Latin1.converter true) (PUnicode [256%N])))|].
  exact (proj2 (to_mysql_failures string string Latin1.runtime
                  (Latin1.converter true) (PUnicode [256%N]))
           (mk_exn UnicodeEncodeError
              "'latin-1' codec can't encode character: ordinal not in range(256)")
           eq_refl).
Defined.

Lemma unicode_to_mysql_witness :
  to_mysql Latin1.runtime (Latin1.converter true) (PUnicode [97%N; 92%N])
  = Return (PStr "a\").
Proof.
  exact (unicode_to_mysql_encoded string string Latin1.runtime
           (Latin1.converter true) [97%N; 92%N] "a\" eq_refl).
Defined.

Lemma decoder_of_table_witness :
  decoder_of Latin1.runtime 1 = Some INT_to_python
  /\ decoder_of Latin1.runtime 15 = None
  /\ decoder_of Latin1.runtime 1000 = None.
Proof.
  assert (Hnd : NoDup (map snd (FieldType_desc Latin1.runtime))).
  { replace (map snd (FieldType_desc Latin1.runtime))
      with (nodup Z.eq_dec (map snd (FieldType_desc Latin1.runtime)))
      by (vm_compute; reflexivity).
    apply NoDup_nodup. }
  split; [|split].
  - apply (proj1 (decoder_of_table string string Latin1.runtime "TINY" 1 Hnd)).
    vm_compute. tauto.
  - apply (proj1 (decoder_of_table string string Latin1.runtime
                    "VARCHAR" 15 Hnd)).
    vm_compute. tauto.
  - apply (proj2 (decoder_of_table string string Latin1.runtime
                    "none" 1000 Hnd)).
    vm_compute. intuition discriminate.
Defined.

Lemma to_python_unknown_type_witness :
  fst (to_python Latin1.runtime (Latin1.converter true)
         (Latin1.field "v" 15 0) (Some "abc"))
  = (Return (PStr "abc") : result pyobj).
Proof.
  apply (to_python_unknown_type string string Latin1.runtime
           (Latin1.converter true) (Latin1.field "v" 15 0) "abc").
  - left. reflexivity.
  - reflexivity.
Defined.

Lemma to_python_cache_transparent_witness :
  fst (to_python Latin1.runtime
         (snd (to_python Latin1.runtime (Latin1.converter true)
                 Sample.YEAR_field (Some "2014")))
         Sample.DATE_field (Some "2014-02-03"))
  = fst (to_python Latin1.runtime (Latin1.converter true)
           Sample.DATE_field (Some "2014-02-03")).
Proof.
  apply (to_python_cache_transparent string string Latin1.runtime
           (Latin1.converter true) Sample.YEAR_field Sample.DATE_field
           (Some "2014") (Some "2014-02-03")).
  left. reflexivity.
Defined.

(** A byte that the ASCII codec refuses, in a STRING column: the
    [UnicodeDecodeError] comes out as a [ValueError] with the name of the
    column. *)
Lemma to_python_resignals_witness :
  fst (to_python Latin1.runtime (mk_MySQLConverter "ascii" 11 true [])
         Sample.STRING_field (Some (str1 "200"%char)))
  = (raise ValueError
       "'ascii' codec can't decode byte: ordinal not in range(128) (field s)"
     : result pyobj).
Proof.
  exact (proj1 (to_python_resignals string string Latin1.runtime
                  (mk_MySQLConverter "ascii" 11 true [])
                  Sample.STRING_field (str1 "200"%char)
                  (or_introl eq_refl))).
Defined.

Lemma BIT_big_endian_witness :
  _BIT_to_python Latin1.runtime (Latin1.converter true)
    (String "001" (String "002" EmptyString)) Sample.BIT_field
  = Return (PInt 258).
Proof.
  apply (proj1 (BIT_big_endian string string Latin1.runtime
                  (Latin1.converter true) Sample.BIT_field
                  (String "001" (String "002" EmptyString)))).
  simpl. lia.
Defined.

Lemma STRING_with_SET_flag_witness :
  exists l,
    _STRING_to_python Latin1.runtime (Latin1.converter true) "a,b,a"
      (Latin1.field "s" 254 (2048 + 128))
    = Return (PSet l)
    /\ NoDup l
    /\ (forall part, In part l <-> In part (PyStr.split "," "a,b,a")).
Proof.
  apply (STRING_with_SET_flag string string Latin1.runtime
           (Latin1.converter true) (Latin1.field "s" 254 (2048 + 128))
           "a,b,a").
  discriminate.
Defined.

Lemma HexLiteral_literal_witness :
  PyStr.forallb is_hex_digit (hl_str Sample.backslash_literal) = true
  /\ (x <- escape (PHexLiteral Sample.backslash_literal : pyobj) ;;
      quote Latin1.runtime x)
     = Return (PStr ("0x" ++ hl_str Sample.backslash_literal))
  /\ plain (TStr ("0x" ++ hl_str Sample.backslash_literal)) = true.
Proof.
  exact (HexLiteral_literal_is_safe string string Latin1.runtime
           (TUnicode [92%N]) "latin1" Sample.backslash_literal eq_refl).
Defined.

Lemma HexLiteral_exact_witness :
  HexLiteral_new Latin1.runtime (TUnicode [92%N]) "latin1"
  = Return (mk_HexLiteral (hexlify "\") "latin1" (TUnicode [92%N])).
Proof.
  exact (HexLiteral_exact_from_16 string string Latin1.runtime
           (TUnicode [92%N]) "latin1" "\" eq_refl eq_refl).
Defined.

Lemma DATE_zero_date_witness :
  _DATE_to_python Latin1.runtime (Latin1.converter true) "0000-00-00"
    Sample.DATE_field
  = Return PNone.
Proof.
  apply (DATE_calendar_or_null string string Latin1.runtime
           (Latin1.converter true) Sample.DATE_field 4 2 2 0 0 0); lia.
Defined.

Lemma DATE_further_parts_witness :
  _DATE_to_python Latin1.runtime (Latin1.converter true)
    ("2014" ++ String "-" ("02" ++ String "-" ("03" ++ String "-" "junk")))
    Sample.DATE_field
  = _DATE_to_python Latin1.runtime (Latin1.converter true)
      ("2014" ++ String "-" ("02" ++ String "-" "03")) Sample.DATE_field.
Proof.
  apply (DATE_ignores_further_parts string string Latin1.runtime
           (Latin1.converter true) Sample.DATE_field "2014" "02" "03" "junk");
    reflexivity.
Defined.

Lemma integer_literal_witness :
  quote Latin1.runtime (PInt (-42))
  = Return (PStr (PyNum.str_of_Z (-42)))
  /\ fst (to_python Latin1.runtime (Latin1.converter true)
            (Latin1.field "n" 3 0) (Some (PyNum.str_of_Z (-42))))
     = Return (int_obj Latin1.runtime (-42)).
Proof.
  apply (integer_literal_read_back string string Latin1.runtime
           (Latin1.converter true) (Latin1.field "n" 3 0) LONG_to_python
           (-42)).
  - left. reflexivity.
  - reflexivity.
  - right. left. reflexivity.
Defined.

Lemma duration_round_trip_witness :
  exists s,
    to_mysql Latin1.runtime (Latin1.converter true)
      (PTimedelta Sample.minus_half_second)
    = Return (PStr s)
    /\ fst (to_python Latin1.runtime (Latin1.converter true)
              Sample.TIME_field (Some s))
       = Return (PTimedelta Sample.minus_half_second).
Proof.
  apply (duration_round_trip string string Latin1.runtime
           (Latin1.converter true) Sample.TIME_field
           Sample.minus_half_second).
  - left. reflexivity.
  - reflexivity.
  - unfold normalized, Sample.minus_half_second. simpl. lia.
Defined.

